(** * Bloglist REST backend (part4/bloglist): ownership-checked CRUD

    A shallow embedding of
      - [controllers/blogs.js]  (the POST, DELETE and PUT routes), and
      - [utils/middleware.js]   (tokenExtractor, userExtractor, errorHandler),
    together with the small part of Express, Mongoose and jsonwebtoken
    that these handlers rely on.

    Handlers are JavaScript functions that mutate the request, the response
    and the database and may throw.  They are embedded in a state-and-exception
    monad over a [World]; [try { .. } catch (error) { next(error) }] is an
    explicit handler on the thrown error.  One request is handled at a time:
    every [await] is a call that returns or throws before the next statement
    runs.  What the client gets is the first response that is written. *)

From Stdlib Require Import ZArith Ascii String DecimalString List.
From stdpp Require Import gmap strings.
Import ListNotations.

Local Open Scope string_scope.

(* ===================================================================== *)
(** ** Data model *)
(* ===================================================================== *)

(** A Mongo ObjectId, identified with the string that [toString()] gives. *)
Abbreviation ObjectId := string.

(** A stored document: its [_id] and the paths of its schema. *)
Record Document (A : Type) := mkDoc { _id : ObjectId; paths : A }.
Arguments mkDoc {A} _ _.
Arguments _id {A} _.
Arguments paths {A} _.

Module Blog.
(** Modelled from the spec: models/blog.js is not among the sources.  The
    schema has title (required), author, url (required), likes and user,
    the reference to the owning user.  A path that is not required can be
    stored as null, which is [None]. *)
Record t := mk {
  title : string;
  author : option string;
  url : string;
  likes : option Z;
  user : option ObjectId
}.
End Blog.

Module User.
(** Modelled from the spec: models/user.js is not among the sources.
    [blogs] is the ordered sequence of references to the owned blogs. *)
Record t := mk {
  username : string;
  name : option string;
  passwordHash : string;
  blogs : list ObjectId
}.

Definition with_blogs (u : t) (bs : list ObjectId) : t :=
  mk (username u) (name u) (passwordHash u) bs.
End User.

(** The two collections, keyed by [_id]. *)
Record Db := mkDb {
  blogColl : gmap string Blog.t;
  userColl : gmap string User.t
}.

(** A JSON value, as [express.json()] parses it.  The numbers of this
    model are the integers; an array or an object is given as its text. *)
Inductive Json :=
| JNull
| JBoolean (b : bool)
| JNumber (n : Z)
| JString (s : string)
| JCompound (text : string).

(** The JSON body of a POST or PUT request.  The handlers pass title,
    author, url and likes on to Mongoose as they come, whatever their type;
    [user] is the property of that name when it is a string, and
    [b_others] are the other properties with a string for value, among
    them [_id] when the client sends one.  [None] is a property that is
    absent. *)
Record Body := mkBody {
  b_title : option Json;
  b_author : option Json;
  b_url : option Json;
  b_likes : option Json;
  b_user : option string;
  b_others : list (string * string)
}.

(** The routes that write; GET only reads and is left out. *)
Inductive Method := POST | DELETE | PUT.

Record Request := mkRequest {
  method : Method;
  authorization : option string;   (* request.get('authorization') *)
  params_id : string;              (* request.params.id *)
  body : Body                      (* request.body *)
}.

(** What a handler passes to [response.json], [response.send] or
    [response.end]. *)
Inductive Payload :=
| ErrorJson (error : string)
| BlogJson (b : Document Blog.t)
| NullJson
| NoBody
| ErrorPage.    (* the page of the default error handler *)

(** The Express response object.  [sent] is what went to the client: the
    status code at the time of the first [json]/[send]/[end], and the body. *)
Record Response := mkResponse {
  statusCode : nat;
  sent : option (nat * Payload)
}.

(** JavaScript errors, by the [name] the error handler dispatches on. *)
Inductive Error :=
| CastError (value : string)
| ValidationError (message : string)
| JsonWebTokenError (message : string)
| TokenExpiredError
| NotBeforeError
| TypeError (message : string)
| MongoServerError (message : string)
| HeadersSentError.

Definition error_name (e : Error) : string :=
  match e with
  | CastError _ => "CastError"
  | ValidationError _ => "ValidationError"
  | JsonWebTokenError _ => "JsonWebTokenError"
  | TokenExpiredError => "TokenExpiredError"
  | NotBeforeError => "NotBeforeError"
  | TypeError _ => "TypeError"
  | MongoServerError _ => "MongoServerError"
  | HeadersSentError => "Error"
  end.

Definition error_message (e : Error) : string :=
  match e with
  | CastError v => "Cast failed for value " ++ v
  | ValidationError m => m
  | JsonWebTokenError m => m
  | TokenExpiredError => "jwt expired"
  | NotBeforeError => "jwt not active"
  | TypeError m => m
  | MongoServerError m => m
  | HeadersSentError => "Cannot set headers after they are sent to the client"
  end.

(** Everything a handler can read and write: the database, the response,
    and the two properties the middleware adds to the request. *)
Record World := mkWorld {
  db : Db;
  response : Response;
  token : option string;                  (* request.token *)
  req_user : option (Document User.t)     (* request.user; None is null *)
}.

Definition set_db (d : Db) (w : World) : World :=
  mkWorld d (response w) (token w) (req_user w).
Definition set_response (r : Response) (w : World) : World :=
  mkWorld (db w) r (token w) (req_user w).
Definition set_token (t : option string) (w : World) : World :=
  mkWorld (db w) (response w) t (req_user w).
Definition set_req_user (u : option (Document User.t)) (w : World) : World :=
  mkWorld (db w) (response w) (token w) u.

(* ===================================================================== *)
(** ** The monad of handlers *)
(* ===================================================================== *)

Inductive Result (A : Type) :=
| Ok (a : A)
| Throw (e : Error).
Arguments Ok {A} _.
Arguments Throw {A} _.

(** A computation returns or throws, and in both cases leaves a world: what
    was written before a [throw] stays written. *)
Definition M (A : Type) : Type := World -> Result A * World.

#[global] Instance M_ret : MRet M := fun A a w => (Ok a, w).
#[global] Instance M_bind : MBind M := fun A B f m w =>
  match m w with
  | (Ok a, w') => f a w'
  | (Throw e, w') => (Throw e, w')
  end.

Definition throw {A} (e : Error) : M A := fun w => (Throw e, w).
Definition try_catch {A} (m : M A) (h : Error -> M A) : M A := fun w =>
  match m w with
  | (Ok a, w') => (Ok a, w')
  | (Throw e, w') => h e w'
  end.
Definition get_world : M World := fun w => (Ok w, w).
Definition modify (f : World -> World) : M unit := fun w => (Ok tt, f w).

(** [a ?? b] *)
Definition nullish {A} (a : option A) (b : A) : A :=
  match a with Some x => x | None => b end.

(** A JSON value as text. *)
Definition json_text (v : Json) : string :=
  match v with
  | JNull => "null"
  | JBoolean true => "true"
  | JBoolean false => "false"
  | JNumber n => NilZero.string_of_int (Z.to_int n)
  | JString s => s
  | JCompound text => text
  end.

(** [a ?? b] on a property of the body: null and undefined give [b]. *)
Definition nullish_json (a : option Json) (b : Json) : Json :=
  match a with
  | None | Some JNull => b
  | Some v => v
  end.

(** [o[name]] on an object that is given as the list of its properties;
    of two properties of the same name the later one counts. *)
Fixpoint property (name : string) (o : list (string * string)) : option string :=
  match o with
  | nil => None
  | (n, v) :: rest =>
      match property name rest with
      | Some v' => Some v'
      | None => if n =? name then Some v else None
      end
  end.

(* ===================================================================== *)
(** ** Express: the response object *)
(* ===================================================================== *)

Module Express.

Definition fresh : Response := mkResponse 200 None.

(** [response.status(code)] only records the code. *)
Definition status (code : nat) : M unit :=
  modify (fun w => set_response (mkResponse code (sent (response w))) w).

(** [response.json(body)] and [response.send(body)] set the Content-Type
    header and write the response; setting a header of a response that
    was already written throws ERR_HTTP_HEADERS_SENT. *)
Definition json (p : Payload) : M unit :=
  w ← get_world;
  match sent (response w) with
  | Some _ => throw HeadersSentError
  | None =>
      modify (set_response
                (mkResponse (statusCode (response w))
                            (Some (statusCode (response w), p))))
  end.

Definition send (p : Payload) : M unit := json p.

(** [response.end()] sets no header: on a response that was already
    written it does nothing. *)
Definition end_ : M unit :=
  w ← get_world;
  match sent (response w) with
  | Some _ => mret tt
  | None =>
      modify (set_response
                (mkResponse (statusCode (response w))
                            (Some (statusCode (response w), NoBody))))
  end.

(** The default error handler at the end of the stack: 500 when nothing
    was written yet, otherwise the connection is closed and the client
    keeps what it was sent. *)
Definition finalhandler (e : Error) (w : World) : World :=
  match sent (response w) with
  | Some _ => w
  | None => set_response (mkResponse 500 (Some (500, ErrorPage))) w
  end.

End Express.

(* ===================================================================== *)
(** ** jsonwebtoken *)
(* ===================================================================== *)

(** The payload that [jwt.verify] decodes; login signs [{ id, username }]. *)
Record JwtPayload := mkPayload {
  tok_id : option string;
  tok_username : option string
}.

(** The outcomes of [jwt.verify(token, config.SECRET)] on a string. *)
Inductive JwtOutcome :=
| Decoded (p : JwtPayload)
| Invalid (message : string)     (* throws JsonWebTokenError *)
| Expired                        (* throws TokenExpiredError *)
| NotActive.                     (* throws NotBeforeError *)

(** [!x] on a string that may be absent. *)
Definition falsy (x : option string) : bool :=
  match x with
  | None => true
  | Some s => s =? ""
  end.

(* ===================================================================== *)
(** ** Mongoose: the Blog schema *)
(* ===================================================================== *)

(** The outcome of the cast of a value to the type of a path: the value,
    which may be null, or a CastError. *)
Inductive Cast (A : Type) :=
| Casts (a : option A)
| CastFails.
Arguments Casts {A} _.
Arguments CastFails {A}.

(** The object literal given to [new Blog(..)]: the paths of the schema,
    and the other properties, of which the constructor reads [_id]. *)
Record BlogInit := mkInit {
  i_title : option Json;
  i_author : option Json;
  i_url : option Json;
  i_likes : option Json;
  i_user : option string;
  i_others : list (string * string)
}.

(** [{ ...body }] *)
Definition spread (b : Body) : BlogInit :=
  mkInit (b_title b) (b_author b) (b_url b) (b_likes b) (b_user b) (b_others b).

Definition with_author (a : string) (i : BlogInit) : BlogInit :=
  mkInit (i_title i) (Some (JString a)) (i_url i) (i_likes i) (i_user i)
         (i_others i).
Definition with_likes (v : Json) (i : BlogInit) : BlogInit :=
  mkInit (i_title i) (i_author i) (i_url i) (Some v) (i_user i) (i_others i).
Definition with_user (u : string) (i : BlogInit) : BlogInit :=
  mkInit (i_title i) (i_author i) (i_url i) (i_likes i) (Some u) (i_others i).

(** The [required] validator of a String path: a string that is not empty. *)
Definition checkRequired (v : option string) : bool :=
  match v with
  | Some s => negb (s =? "")
  | None => false
  end.

Definition required_message (path : string) : string :=
  path ++ ": Path `" ++ path ++ "` is required.".

(** The messages of the [required] validators that fail among [checks],
    each a path and the value it is given. *)
Definition failing_required (checks : list (string * option string)) : list string :=
  List.map (fun c => required_message (fst c))
           (List.filter (fun c => negb (checkRequired (snd c))) checks).

(** A new document as the constructor leaves it: its [_id], unless the
    literal gives one that does not cast, and every path cast to its type;
    a cast that fails is kept for the validation. *)
Record NewBlog := mkNew {
  n_id : option ObjectId;
  n_title : Cast string;
  n_author : Cast string;
  n_url : Cast string;
  n_likes : Cast Z;
  n_user : option ObjectId
}.

Definition cast_message {A} (path : string) (c : Cast A) : list string :=
  match c with
  | CastFails => [path ++ ": Cast failed at path `" ++ path ++ "`"]
  | Casts _ => nil
  end.

(** The value that the [required] validator of a path is given. *)
Definition required_check (path : string) (c : Cast string)
  : list (string * option string) :=
  match c with
  | Casts v => [(path, v)]
  | CastFails => nil
  end.

Definition validation_messages (n : NewBlog) : list string :=
  ((match n_id n with
    | None => ["_id: Cast to ObjectId failed at path `_id`"]
    | Some _ => nil
    end)
   ++ cast_message "title" (n_title n) ++ cast_message "author" (n_author n)
   ++ cast_message "url" (n_url n) ++ cast_message "likes" (n_likes n)
   ++ failing_required (required_check "title" (n_title n)
                        ++ required_check "url" (n_url n)))%list.

(** Modelled from the spec: models/blog.js is not among the sources; title
    and url are required, author defaults to "unknown" and likes to 0.
    Validation of a new document: the document, when every path was cast
    and title and url pass their validators, or the messages of the
    failing paths. *)
Definition validate_new (n : NewBlog) : Document Blog.t + list string :=
  match n_id n, n_title n, n_author n, n_url n, n_likes n with
  | Some o, Casts (Some t), Casts a, Casts (Some u), Casts l =>
      if checkRequired (Some t) && checkRequired (Some u)
      then inl (mkDoc o (Blog.mk t a u l (n_user n)))
      else inr (validation_messages n)
  | _, _, _, _, _ => inr (validation_messages n)
  end.

(** The update document [{ title, author, likes, url }] of the PUT route,
    with the values as the body gives them. *)
Record BlogUpdate := mkUpdate {
  u_title : option Json;
  u_author : option Json;
  u_likes : option Json;
  u_url : option Json
}.

(** The update after the cast: for each key, [None] when the update does
    not set it, and otherwise the value it sets, which may be null. *)
Record CastedUpdate := mkCasted {
  c_title : option (option string);
  c_author : option (option string);
  c_likes : option (option Z);
  c_url : option (option string)
}.

(** Keys whose value is undefined are removed from an update. *)
Definition update_is_empty (u : CastedUpdate) : bool :=
  match c_title u, c_author u, c_likes u, c_url u with
  | None, None, None, None => true
  | _, _, _, _ => false
  end.

(** Update validators ([runValidators: true]) run on the paths that the
    update sets, before the query is sent. *)
Definition set_path (path : string) (v : option (option string))
  : list (string * option string) :=
  match v with
  | Some x => [(path, x)]
  | None => nil
  end.

Definition validate_update (u : CastedUpdate) : list string :=
  failing_required
    (set_path "title" (c_title u) ++ set_path "url" (c_url u))%list.

(** [$set] of the defined keys.  A title or url that is set is a string
    when the update has passed its validators. *)
Definition apply_update (u : CastedUpdate) (b : Blog.t) : Blog.t :=
  Blog.mk (match c_title u with Some (Some t) => t | _ => Blog.title b end)
          (nullish (c_author u) (Blog.author b))
          (match c_url u with Some (Some l) => l | _ => Blog.url b end)
          (nullish (c_likes u) (Blog.likes b))
          (Blog.user b).

Definition join_messages (ms : list string) : string :=
  String.concat ", " ms.

(** How a middleware hands over: [next()], [next(error)], or neither when
    it has answered the request itself. *)
Inductive Flow :=
| Next
| NextError (error : Error)
| Done.

(** Express calls a middleware and takes an exception it throws for
    [next(error)]. *)
Definition call (m : M Flow) (w : World) : Flow * World :=
  match m w with
  | (Ok f, w') => (f, w')
  | (Throw e, w') => (NextError e, w')
  end.

(** [array.includes(x)] on strings. *)
Definition includes (l : list string) (x : string) : bool :=
  existsb (String.eqb x) l.

Section Bloglist.

(** [jwt.verify(token, config.SECRET)] at the time of the request, on a
    token that is a string. *)
Variable jwt_verify : string -> JwtOutcome.

(** Mongoose's cast of a string to an ObjectId, which is given in its
    string form: [None] is a CastError. *)
Variable castObjectId : string -> option ObjectId.

(** The [_id] that [new Blog(..)] generates during this request, for a
    literal that gives none. *)
Variable newObjectId : ObjectId.

(** The value that a literal gives for the [_id] of the new document, if
    it gives one: the property [_id] among those that are not paths above
    (a Mongoose that has a setter for [id] takes that property for it as
    well). *)
Variable given_id : list (string * string) -> option string.

(** Mongoose's cast to String and to Number of a value that is neither of
    that type nor null. *)
Variable castString_other : Json -> Cast string.
Variable castNumber_other : Json -> Cast Z.

(* ===================================================================== *)
(** ** Mongoose: casting *)
(* ===================================================================== *)

Definition castString (v : Json) : Cast string :=
  match v with
  | JString s => Casts (Some s)
  | JNull => Casts None
  | _ => castString_other v
  end.

Definition castNumber (v : Json) : Cast Z :=
  match v with
  | JNumber n => Casts (Some n)
  | JNull => Casts None
  | _ => castNumber_other v
  end.

(** A path of a new document: the cast of the value that the literal
    gives, or the default of the schema when it gives none. *)
Definition cast_path {A} (cast : Json -> Cast A) (v : option Json)
  (default : option A) : Cast A :=
  match v with
  | Some v => cast v
  | None => Casts default
  end.

(** The [_id] of a new document: the one that the literal gives, cast to
    an ObjectId, or the generated one when it gives none. *)
Definition document_id (others : list (string * string)) : option ObjectId :=
  match given_id others with
  | Some s => castObjectId s
  | None => Some newObjectId
  end.

(** A key of an update: absent, or cast to the type of its path; a value
    that is not cast is a CastError. *)
Definition cast_key {A} (cast : Json -> Cast A) (v : option Json)
  : option (option A) + Json :=
  match v with
  | None => inl None
  | Some v =>
      match cast v with
      | Casts a => inl (Some a)
      | CastFails => inr v
      end
  end.

(** The cast of an update document, key by key: the update that is sent,
    or the first value that is not cast. *)
Definition castUpdate (u : BlogUpdate) : CastedUpdate + Json :=
  match cast_key castString (u_title u) with
  | inr v => inr v
  | inl t =>
      match cast_key castString (u_author u) with
      | inr v => inr v
      | inl a =>
          match cast_key castNumber (u_likes u) with
          | inr v => inr v
          | inl l =>
              match cast_key castString (u_url u) with
              | inr v => inr v
              | inl r => inl (mkCasted t a l r)
              end
          end
      end
  end.

(* ===================================================================== *)
(** ** Library calls of the handlers *)
(* ===================================================================== *)

(** [jwt.verify(request.token, config.SECRET)]; a token that is null
    throws as an invalid one does. *)
Definition jwt_verify_token : M JwtPayload :=
  w ← get_world;
  match token w with
  | None => throw (JsonWebTokenError "jwt must be provided")
  | Some t =>
      match jwt_verify t with
      | Decoded p => mret p
      | Invalid m => throw (JsonWebTokenError m)
      | Expired => throw TokenExpiredError
      | NotActive => throw NotBeforeError
      end
  end.

(** [User.findById(id)]; [findById(undefined)] is [findOne({ _id: null })],
    which finds nothing. *)
Definition User_findById (id : option string) : M (option (Document User.t)) :=
  match id with
  | None => mret None
  | Some s =>
      match castObjectId s with
      | None => throw (CastError s)
      | Some o =>
          w ← get_world;
          mret (mkDoc o <$> userColl (db w) !! o)
      end
  end.

(** [new Blog(init)] *)
Definition new_Blog (init : BlogInit) : NewBlog :=
  mkNew (document_id (i_others init))
        (cast_path castString (i_title init) None)
        (cast_path castString (i_author init) (Some "unknown"))
        (cast_path castString (i_url init) None)
        (cast_path castNumber (i_likes init) (Some 0%Z))
        (i_user init).

(** [blog.save()] of a new document: validate, then insert; the server
    refuses an [_id] that is already in the collection. *)
Definition Blog_save (blog : NewBlog) : M (Document Blog.t) :=
  match validate_new blog with
  | inr errors =>
      throw (ValidationError ("Blog validation failed: " ++ join_messages errors))
  | inl doc =>
      w ← get_world;
      match blogColl (db w) !! _id doc with
      | Some _ => throw (MongoServerError "E11000 duplicate key error collection")
      | None =>
          modify (set_db (mkDb (<[_id doc := paths doc]> (blogColl (db w)))
                               (userColl (db w))));;
          mret doc
      end
  end.

(** [user.save()] of a document that was loaded and whose [blogs] path was
    assigned: a [$set] of that path on the stored document.  The database
    is taken to be available: the write is not refused. *)
Definition User_save (user : Document User.t) : M unit :=
  modify (fun w =>
    set_db (mkDb (blogColl (db w))
                 (alter (fun stored => User.with_blogs stored (User.blogs (paths user)))
                        (_id user) (userColl (db w)))) w).

(** [Blog.findByIdAndDelete(id)] *)
Definition Blog_findByIdAndDelete (id : string) : M (option (Document Blog.t)) :=
  match castObjectId id with
  | None => throw (CastError id)
  | Some o =>
      w ← get_world;
      modify (set_db (mkDb (delete o (blogColl (db w))) (userColl (db w))));;
      mret (mkDoc o <$> blogColl (db w) !! o)
  end.

(** [Blog.findByIdAndUpdate(id, update, { new: true, runValidators: true,
    context: 'query' })]: cast the id, cast the update and drop its
    undefined keys (an update left empty is a plain find), validate the
    update, then update and return the new document, or null when there
    is none. *)
Definition Blog_findByIdAndUpdate (id : string) (update : BlogUpdate)
  : M (option (Document Blog.t)) :=
  match castObjectId id with
  | None => throw (CastError id)
  | Some o =>
      match castUpdate update with
      | inr v => throw (CastError (json_text v))
      | inl casted =>
          w ← get_world;
          if update_is_empty casted then mret (mkDoc o <$> blogColl (db w) !! o)
          else
            match validate_update casted with
            | e :: errors =>
                throw (ValidationError
                         ("Validation failed: " ++ join_messages (e :: errors)))
            | nil =>
                match blogColl (db w) !! o with
                | None => mret None
                | Some b =>
                    modify (set_db (mkDb (<[o := apply_update casted b]>
                                            (blogColl (db w)))
                                         (userColl (db w))));;
                    mret (Some (mkDoc o (apply_update casted b)))
                end
            end
      end
  end.

(** Reading a property of [request.user] throws a TypeError when it is
    null. *)
Definition request_user : M (Document User.t) :=
  w ← get_world;
  match req_user w with
  | Some u => mret u
  | None => throw (TypeError "Cannot read properties of null")
  end.

(* ===================================================================== *)
(** ** utils/middleware.js *)
(* ===================================================================== *)

Definition unknownEndpoint (request : Request) : M Flow :=
  Express.status 404;;
  Express.send (ErrorJson "unknown endpoint");;
  mret Done.

(** [logger.error(error.message)] writes to the console only. *)
Definition errorHandler (error : Error) : M Flow :=
  if error_name error =? "CastError" then
    Express.status 400;; Express.send (ErrorJson "malformatted id");; mret Done
  else if error_name error =? "ValidationError" then
    Express.status 400;; Express.json (ErrorJson (error_message error));; mret Done
  else if error_name error =? "JsonWebTokenError" then
    Express.status 401;; Express.json (ErrorJson "JWT invalid");; mret Done
  else if error_name error =? "TokenExpiredError" then
    Express.status 401;; Express.json (ErrorJson "JWT expired");; mret Done
  else mret (NextError error).

Definition tokenExtractor (request : Request) : M Flow :=
  try_catch
    (let authorization := authorization request in
     match authorization with
     | Some a =>
         if negb (a =? "") && String.prefix "Bearer " a
         then modify (set_token (Some (String.substring 7 (String.length a - 7) a)))
         else modify (set_token None)
     | None => modify (set_token None)
     end;;
     mret Next)
    (fun error => mret (NextError error)).

Definition userExtractor (request : Request) : M Flow :=
  try_catch
    (decodedToken ← jwt_verify_token;
     (if falsy (tok_id decodedToken)
      then Express.status 401;; Express.json (ErrorJson "JWT invalid")
      else mret tt);;
     user ← User_findById (tok_id decodedToken);
     modify (set_req_user user);;
     mret Next)
    (fun error => mret (NextError error)).

(* ===================================================================== *)
(** ** controllers/blogs.js *)
(* ===================================================================== *)

Definition blogs_post (request : Request) : M Flow :=
  try_catch
    (let body := body request in
     user ← request_user;                (* request.user.name, request.user.id *)
     let blog := new_Blog
       (with_user (_id user)
         (with_likes (nullish_json (b_likes body) (JNumber 0))
           (with_author (nullish (User.name (paths user)) "unknown")
             (spread body)))) in
     newBlog ← Blog_save blog;
     user ← request_user;                (* request.user.blogs *)
     let user := mkDoc (_id user)
       (User.with_blogs (paths user) (User.blogs (paths user) ++ [_id newBlog])) in
     modify (set_req_user (Some user));;
     User_save user;;
     Express.status 201;; Express.json (BlogJson newBlog);;
     mret Done)
    (fun error => mret (NextError error)).

Definition blogs_delete (request : Request) : M Flow :=
  try_catch
    (user ← request_user;
     (* b => b._id.toString(): an ObjectId is given in its string form *)
     let userBlogIds := List.map (fun b : ObjectId => b) (User.blogs (paths user)) in
     (if negb (includes userBlogIds (params_id request))
      then Express.status 401;; Express.json (ErrorJson "unauthorized blog operation")
      else mret tt);;
     Blog_findByIdAndDelete (params_id request);;
     Express.status 204;; Express.end_;;
     mret Done)
    (fun error => mret (NextError error)).

Definition blogs_put (request : Request) : M Flow :=
  let body := body request in
  try_catch
    (updatedBlog ← Blog_findByIdAndUpdate (params_id request)
       (mkUpdate (b_title body) (b_author body) (b_likes body) (b_url body));
     (match updatedBlog with
      | None => Express.status 404;; Express.end_
      | Some _ => mret tt
      end);;
     Express.json (match updatedBlog with
                   | Some b => BlogJson b
                   | None => NullJson
                   end);;
     mret Done)
    (fun error => mret (NextError error)).

(* ===================================================================== *)
(** ** The application *)
(* ===================================================================== *)

(** The handlers of a route, in the order [blogsRouter] registers them. *)
Definition route (request : Request) : list (Request -> M Flow) :=
  match method request with
  | POST => [userExtractor; blogs_post]
  | DELETE => [userExtractor; blogs_delete]
  | PUT => [blogs_put]
  end.

(** A stack of middleware runs until one does not call [next()]. *)
Fixpoint run_stack (stack : list (Request -> M Flow)) (request : Request)
  (w : World) : Flow * World :=
  match stack with
  | nil => (Next, w)
  | m :: rest =>
      match call (m request) w with
      | (Next, w') => run_stack rest request w'
      | stop => stop
      end
  end.

(** Modelled from the spec: app.js is not among the sources.  Errors are
    caught at the request boundary: [next(error)] goes to [errorHandler]
    and, from there, to the default handler of Express. *)
Definition handle_errors (outcome : Flow * World) : World :=
  match outcome with
  | (NextError e, w) =>
      match call (errorHandler e) w with
      | (NextError e', w') => Express.finalhandler e' w'
      | (_, w') => w'
      end
  | (_, w) => w
  end.

(** Modelled from the spec: app.js is not among the sources.  After the
    router come the unknown-endpoint handler and the error handlers. *)
Definition after_router (request : Request) (outcome : Flow * World) : World :=
  match outcome with
  | (Next, w) => handle_errors (call (unknownEndpoint request) w)
  | stop => handle_errors stop
  end.

(** Modelled from the spec: app.js is not among the sources.  The token
    extractor runs before the router. *)
Definition app (request : Request) (d : Db) : World :=
  after_router request
    (run_stack (tokenExtractor :: route request) request
               (mkWorld d Express.fresh None None)).

(** What the client observes. *)
Definition status_of (w : World) : option nat := fst <$> sent (response w).
Definition payload_of (w : World) : option Payload := snd <$> sent (response w).

End Bloglist.

(* ===================================================================== *)
(** ** Who the request is from *)
(* ===================================================================== *)

(** The value that [tokenExtractor] leaves in [request.token]. *)
Definition presented_token (request : Request) : option string :=
  token (snd (call (tokenExtractor request)
                   (mkWorld (mkDb ∅ ∅) Express.fresh None None))).

(** The world in which the first handler after [tokenExtractor] runs. *)
Definition arrived (request : Request) (d : Db) : World :=
  mkWorld d Express.fresh (presented_token request) None.

Section Requester.

Variable jwt_verify : string -> JwtOutcome.
Variable castObjectId : string -> option ObjectId.

(** The token is missing, invalid or expired. *)
Definition unauthenticated (request : Request) : bool :=
  match presented_token request with
  | None => true
  | Some t =>
      match jwt_verify t with
      | Invalid _ | Expired => true
      | Decoded _ | NotActive => false
      end
  end.

(** The user that a valid token resolves to: the token verifies, its
    payload carries an id, and that id is the [_id] of a stored user. *)
Definition requester (request : Request) (d : Db) : option (Document User.t) :=
  match presented_token request with
  | None => None
  | Some t =>
      match jwt_verify t with
      | Decoded p =>
          if falsy (tok_id p) then None
          else
            match tok_id p with
            | Some i =>
                match castObjectId i with
                | Some o => mkDoc o <$> userColl d !! o
                | None => None
                end
            | None => None
            end
      | _ => None
      end
  end.

End Requester.

(** The same request with another body. *)
Definition with_body (b : Body) (request : Request) : Request :=
  mkRequest (method request) (authorization request) (params_id request) b.

(** The body with another value, or none, for [author]. *)
Definition with_body_author (a : option Json) (b : Body) : Body :=
  mkBody (b_title b) a (b_url b) (b_likes b) (b_user b) (b_others b).

(** The update document that the PUT route builds from the body. *)
Definition update_of (b : Body) : BlogUpdate :=
  mkUpdate (b_title b) (b_author b) (b_likes b) (b_url b).

(** The body cut down to the properties title, author, likes and url. *)
Definition permitted (b : Body) : Body :=
  mkBody (b_title b) (b_author b) (b_url b) (b_likes b) None nil.

(** A computation keeps the answer: a response that was written before it
    runs is still the response after it. *)
Definition keeps_answer {A} (m : M A) : Prop :=
  forall w x, sent (response w) = Some x ->
              sent (response (snd (m w))) = Some x.

(* ===================================================================== *)
(** ** A concrete deployment, for running the handlers *)
(* ===================================================================== *)

Module Scenario.

Definition is_hex (c : ascii) : bool :=
  let n := nat_of_ascii c in
  (Nat.leb 48 n && Nat.leb n 57) || (Nat.leb 97 n && Nat.leb n 102)
  || (Nat.leb 65 n && Nat.leb n 70).

Definition lower (c : ascii) : ascii :=
  let n := nat_of_ascii c in
  if Nat.leb 65 n && Nat.leb n 70 then ascii_of_nat (n + 32) else c.

(** The hexadecimal form of an ObjectId: 24 hexadecimal digits. *)
Definition castObjectId (s : string) : option ObjectId :=
  let cs := list_ascii_of_string s in
  if Nat.eqb (List.length cs) 24 && forallb is_hex cs
  then Some (string_of_list_ascii (List.map lower cs))
  else None.

(** Casts of values of another type: a number or a boolean is cast to
    the string that prints it, a string that prints an integer to that
    integer, the empty string to null, a boolean to 1 or 0; an array or
    an object is not cast. *)
Definition castString_other (v : Json) : Cast string :=
  match v with
  | JNumber _ | JBoolean _ => Casts (Some (json_text v))
  | _ => CastFails
  end.

Definition castNumber_other (v : Json) : Cast Z :=
  match v with
  | JString "" => Casts None
  | JString s =>
      match NilZero.int_of_string s with
      | Some n => Casts (Some (Z.of_int n))
      | None => CastFails
      end
  | JBoolean true => Casts (Some 1%Z)
  | JBoolean false => Casts (Some 0%Z)
  | _ => CastFails
  end.

(** The literal gives the [_id] of the new document as its property
    [_id]. *)
Definition given_id (others : list (string * string)) : option string :=
  property "_id" others.

Definition arto : ObjectId := "64b7f1a2c9e77a0012ab34c1".
Definition matti : ObjectId := "64b7f1a2c9e77a0012ab34c2".

Definition react_patterns : ObjectId := "5a422a851b54a676234d17f7".
Definition go_to_statement : ObjectId := "5a422aa71b54a676234d17f8".
Definition nowhere : ObjectId := "5a422b3a1b54a676234d17f9".
Definition fresh_id : ObjectId := "64b7f20bc9e77a0012ab3501".

(** Tokens as the login route would have signed them for the two users,
    one that has expired, and one signed without an id. *)
Definition jwt_verify (t : string) : JwtOutcome :=
  if t =? "token.of.arto" then Decoded (mkPayload (Some arto) (Some "arto"))
  else if t =? "token.of.matti" then Decoded (mkPayload (Some matti) (Some "matti"))
  else if t =? "token.without.id" then Decoded (mkPayload None (Some "arto"))
  else if t =? "token.expired" then Expired
  else Invalid "jwt malformed".

Definition seed : Db :=
  mkDb
    (<[react_patterns :=
         Blog.mk "React patterns" (Some "Michael Chan")
                 "https://reactpatterns.com/" (Some 7%Z) (Some arto)]>
       (<[go_to_statement :=
            Blog.mk "Go To Statement Considered Harmful"
                    (Some "Edsger W. Dijkstra")
                    "http://www.u.arizona.edu/" (Some 5%Z) (Some matti)]> ∅))
    (<[arto := User.mk "arto" (Some "Arto Hellas") "$2b$10$hash.a" [react_patterns]]>
       (<[matti := User.mk "matti" None "$2b$10$hash.m" [go_to_statement]]> ∅)).

Definition no_body : Body := mkBody None None None None None nil.

Definition run (request : Request) (d : Db) : World :=
  app jwt_verify castObjectId fresh_id given_id
          castString_other castNumber_other
      request d.

Definition arto_doc : Document User.t :=
  mkDoc arto (User.mk "arto" (Some "Arto Hellas") "$2b$10$hash.a" [react_patterns]).
Definition matti_doc : Document User.t :=
  mkDoc matti (User.mk "matti" None "$2b$10$hash.m" [go_to_statement]).

(** DELETE, by arto, of his own blog; of the blog of matti; of an id that
    is not an ObjectId (the one of the test suite). *)
Definition delete_own : Request :=
  mkRequest DELETE (Some "Bearer token.of.arto") react_patterns no_body.
Definition delete_foreign : Request :=
  mkRequest DELETE (Some "Bearer token.of.arto") go_to_statement no_body.
Definition delete_malformed : Request :=
  mkRequest DELETE (Some "Bearer token.of.arto") "---invalid-fomat---" no_body.

(** POST by matti, who has no name, of a blog with an author and an extra
    property but no likes; by arto without an author; by matti with an
    [_id] of his choice; the first without a token, with an expired one,
    and with a token that has no id. *)
Definition new_blog : Body :=
  mkBody (Some (JString "Type wars")) (Some (JString "Robert C. Martin"))
         (Some (JString "http://blog.cleancoder.com/")) None (Some arto)
         [("additional", "should-not-contain-this")].
Definition post_by_matti : Request :=
  mkRequest POST (Some "Bearer token.of.matti") "" new_blog.
Definition post_by_arto_no_author : Request :=
  mkRequest POST (Some "Bearer token.of.arto") ""
            (mkBody (Some (JString "Type wars")) None
                    (Some (JString "http://blog.cleancoder.com/")) None None nil).
Definition post_with_id : Request :=
  mkRequest POST (Some "Bearer token.of.matti") ""
            (mkBody (Some (JString "Type wars")) None
                    (Some (JString "http://blog.cleancoder.com/")) None None
                    [("_id", nowhere)]).
Definition post_no_token : Request :=
  mkRequest POST None "" new_blog.
Definition post_expired : Request :=
  mkRequest POST (Some "Bearer token.expired") "" new_blog.
Definition post_without_id : Request :=
  mkRequest POST (Some "Bearer token.without.id") "" new_blog.

(** PUT of a title and an extra property, on a blog that exists and on
    an id that none has; PUT of an empty title on the latter. *)
Definition retitle : Body :=
  mkBody (Some (JString "update")) None None None (Some matti)
         [("additional", "should-not-contain-this")].
Definition put_existing : Request :=
  mkRequest PUT None react_patterns retitle.
Definition put_missing : Request :=
  mkRequest PUT None nowhere retitle.
Definition put_missing_empty_title : Request :=
  mkRequest PUT None nowhere (mkBody (Some (JString "")) None None None None nil).

End Scenario.

(* ===================================================================== *)
(** ** controllers/blogs.js: GET /api/blogs *)
(* ===================================================================== *)

(** What [populate('user', { username: 1, name: 1, id: 1 })] puts in the
    place of the reference to the owner. *)
Record OwnerSummary := mkOwner {
  o_username : string;
  o_name : option string;
  o_id : ObjectId
}.

(** A blog of the listing: the document, and its [user] populated; the
    populated [user] is null when the reference is absent or dangling. *)
Record PopulatedBlog := mkPopulated {
  p_blog : Document Blog.t;
  p_user : option OwnerSummary
}.

Definition populate_user (d : Db) (ref : option ObjectId) : option OwnerSummary :=
  match ref with
  | Some uid =>
      (fun u => mkOwner (User.username u) (User.name u) uid) <$> userColl d !! uid
  | None => None
  end.

(** [Blog.find({}).populate('user', ..)] *)
Definition Blog_find_populate (d : Db) : list PopulatedBlog :=
  List.map (fun ob => mkPopulated (mkDoc (fst ob) (snd ob))
                                  (populate_user d (Blog.user (snd ob))))
           (map_to_list (blogColl d)).

(** The GET route: it reads no token, and on the fresh response
    [response.json(blogs)] sends the listing with status 200. *)
Definition blogs_get (d : Db) : nat * list PopulatedBlog :=
  (200, Blog_find_populate d).

(* ===================================================================== *)
(** ** Consistency of blogs and users *)
(* ===================================================================== *)

(** Every stored blog refers to a stored user whose [blogs] list it. *)
Definition owner_lists_blog (d : Db) : Prop :=
  forall o b, blogColl d !! o = Some b ->
    exists uid u, Blog.user b = Some uid /\
                  userColl d !! uid = Some u /\
                  In o (User.blogs u).

(** The same request with another Authorization header, or none. *)
Definition with_authorization (a : option string) (request : Request) : Request :=
  mkRequest (method request) a (params_id request) (body request).

(** The DELETE of [id] with the credentials of [request]. *)
Definition delete_of (id : string) (request : Request) : Request :=
  mkRequest DELETE (authorization request) id (body request).

(* ===================================================================== *)
(** ** The anecdote slice and its form (Redux frontend) *)
(* ===================================================================== *)

Module Anecdote.
(** An anecdote as the server gives it; [votes] is a count, an integer. *)
Record t := mk {
  content : string;
  id : string;
  votes : Z
}.
End Anecdote.

Module Anecdotes.

(** An element of the state: an anecdote object, or a bare string, which
    is what [addNewAnecdote] of [AnecdoteForm] gives [createAnecdote] as
    payload. *)
Inductive Item :=
| Object (anecdote : Anecdote.t)
| Text (s : string).

(** The actions of the slice, and those of the other slices; the id that
    [increaseVoteCount] is given is a string. *)
Inductive Action :=
| createAnecdote (payload : Item)
| increaseVoteCount (payload : string)
| setAnecdotes (payload : list Item)
| other (type : string).

Definition initialState : list Item := [].

(** The numbers of JavaScript are floating-point numbers with 53
    significant bits: every integer up to 2^53 in absolute value is one,
    and a larger integer is one when it is a multiple of the power of 2
    that its size leaves room for.  [nearest_number z] is the number that
    an operation gives whose exact result is the integer [z], short of
    the overflow at 2^1024: the nearest one, and of two that are equally
    near the one with the even significand. *)
Definition nearest_number (z : Z) : Z :=
  let e := (Z.log2 (Z.abs z) - 52)%Z in
  if (e <=? 0)%Z then z
  else
    let q := (z / 2 ^ e)%Z in
    let r := (z mod 2 ^ e)%Z in
    let half := (2 ^ (e - 1))%Z in
    ((if (r <? half)%Z then q
      else if (half <? r)%Z then q + 1
      else if Z.even q then q else q + 1) * 2 ^ e)%Z.

(** [anecdote => anecdote.id === id ? { ...anecdote, votes: anecdote.votes + 1 }
    : anecdote], for an [id] that is a string; a string has no [id]. *)
Definition voted (id : string) (anecdote : Item) : Item :=
  match anecdote with
  | Object a =>
      if Anecdote.id a =? id
      then Object (Anecdote.mk (Anecdote.content a) (Anecdote.id a)
                               (nearest_number (Anecdote.votes a + 1)))
      else anecdote
  | Text _ => anecdote
  end.

(** The reducer of the slice; [createAnecdote] pushes on the draft state. *)
Definition reducer (state : list Item) (action : Action) : list Item :=
  match action with
  | createAnecdote payload => state ++ [payload]
  | increaseVoteCount id => List.map (voted id) state
  | setAnecdotes payload => payload
  | other _ => state
  end.

Definition votes_of (anecdote : Item) : Z :=
  match anecdote with
  | Object a => Anecdote.votes a
  | Text _ => 0
  end.

Definition total_votes (state : list Item) : Z :=
  fold_right Z.add 0%Z (List.map votes_of state).

Definition has_id (id : string) (anecdote : Item) : bool :=
  match anecdote with
  | Object a => Anecdote.id a =? id
  | Text _ => false
  end.


End Anecdotes.

(* ===================================================================== *)
(** ** More requests of the concrete deployment *)
(* ===================================================================== *)

Module Cases.
Import Scenario.

(** A user that is no longer stored, and the verification of tokens when
    one was signed for that user. *)
Definition ghost : ObjectId := "64b7f1a2c9e77a0012ab34c9".

Definition jwt_verify (t : string) : JwtOutcome :=
  if t =? "token.of.ghost" then Decoded (mkPayload (Some ghost) (Some "ghost"))
  else Scenario.jwt_verify t.

Definition run_with_ghost (request : Request) (d : Db) : World :=
  app jwt_verify castObjectId fresh_id given_id
          castString_other castNumber_other
      request d.

Definition delete_by_ghost : Request :=
  mkRequest DELETE (Some "Bearer token.of.ghost") react_patterns no_body.
Definition delete_no_token : Request :=
  mkRequest DELETE None react_patterns no_body.
Definition put_malformed : Request :=
  mkRequest PUT None "---invalid-fomat---" retitle.
Definition post_no_title : Request :=
  mkRequest POST (Some "Bearer token.of.arto") ""
            (mkBody None (Some (JString "Test Dummy"))
                    (Some (JString "http://www.somerandomblogurl.com"))
                    (Some (JNumber 5)) None nil).

(** POST by matti of a blog with the [_id] of a stored blog, and with an
    [_id] that is not an ObjectId. *)
Definition post_with_taken_id : Request :=
  mkRequest POST (Some "Bearer token.of.matti") ""
            (mkBody (Some (JString "Type wars")) None
                    (Some (JString "http://blog.cleancoder.com/")) None None
                    [("_id", react_patterns)]).
Definition post_with_malformed_id : Request :=
  mkRequest POST (Some "Bearer token.of.matti") ""
            (mkBody (Some (JString "Type wars")) None
                    (Some (JString "http://blog.cleancoder.com/")) None None
                    [("_id", "---invalid-fomat---")]).

(** PUT, on an id that no blog has, of a null title, and of likes that
    are not a number. *)
Definition put_missing_null_title : Request :=
  mkRequest PUT None nowhere (mkBody (Some JNull) None None None None nil).
Definition put_missing_bad_likes : Request :=
  mkRequest PUT None nowhere
            (mkBody None None None (Some (JString "many")) None nil).

(** The listing entry of the blog of arto. *)
Definition react_patterns_entry : PopulatedBlog :=
  mkPopulated
    (mkDoc react_patterns
       (Blog.mk "React patterns" (Some "Michael Chan")
                "https://reactpatterns.com/" (Some 7%Z) (Some arto)))
    (Some (mkOwner "arto" (Some "Arto Hellas") arto)).

(** A response that was already written. *)
Definition answered : World :=
  mkWorld seed (mkResponse 401 (Some (401, ErrorJson "JWT invalid"))) None None.

(** Two anecdotes as the server gives them. *)
Definition two_anecdotes : list Anecdotes.Item :=
  [Anecdotes.Object (Anecdote.mk "If it hurts, do it more often" "47145" 0);
   Anecdotes.Object
     (Anecdote.mk "Premature optimization is the root of all evil" "21149" 3)].

End Cases.

(* ===================================================================== *)
(** ** Properties *)
(* ===================================================================== *)

Lemma substring_all (s : string) : String.substring 0 (String.length s) s = s.
Proof. induction s as [|c s IH]; simpl; [reflexivity | now rewrite IH]. Qed.

(** [Authorization: Bearer <t>] presents the token [t]. *)
Lemma presented_token_bearer (request : Request) (t : string) :
  authorization request = Some ("Bearer " ++ t) ->
  presented_token request = Some t.
Proof.
  intros H. unfold presented_token, tokenExtractor, call, try_catch.
  rewrite H. simpl. change ("" +:+ t) with t.
  rewrite Nat.sub_0_r, substring_all. now destruct t.
Qed.

Lemma tokenExtractor_spec (request : Request) (w : World) :
  call (tokenExtractor request) w = (Next, set_token (presented_token request) w).
Proof.
  unfold presented_token, tokenExtractor, call, try_catch.
  destruct (authorization request) as [a|]; simpl; [|reflexivity].
  destruct (negb (a =? "") && String.prefix "Bearer " a); reflexivity.
Qed.

(* --------------------------------------------------------------------- *)
(** *** The first answer is the answer *)

Lemma keeps_ret {A} (a : A) : keeps_answer (mret a).
Proof. intros w x H. exact H. Qed.

Lemma keeps_throw {A} (e : Error) : keeps_answer (@throw A e).
Proof. intros w x H. exact H. Qed.

Lemma keeps_get_world : keeps_answer get_world.
Proof. intros w x H. exact H. Qed.

Lemma keeps_bind {A B} (m : M A) (f : A -> M B) :
  keeps_answer m -> (forall a, keeps_answer (f a)) -> keeps_answer (m ≫= f).
Proof.
  intros Hm Hf w x H. unfold mbind, M_bind.
  specialize (Hm w x H). destruct (m w) as [[a|e] w']; simpl in *.
  - now apply Hf.
  - exact Hm.
Qed.

Lemma keeps_try {A} (m : M A) (h : Error -> M A) :
  keeps_answer m -> (forall e, keeps_answer (h e)) -> keeps_answer (try_catch m h).
Proof.
  intros Hm Hh w x H. unfold try_catch.
  specialize (Hm w x H). destruct (m w) as [[a|e] w']; simpl in *.
  - exact Hm.
  - now apply Hh.
Qed.

Lemma keeps_modify (f : World -> World) :
  (forall w, sent (response (f w)) = sent (response w)) ->
  keeps_answer (modify f).
Proof. intros Hf w x H. simpl. now rewrite Hf. Qed.

Lemma keeps_status (code : nat) : keeps_answer (Express.status code).
Proof. now apply keeps_modify. Qed.

Lemma keeps_json (p : Payload) : keeps_answer (Express.json p).
Proof.
  intros w x H. unfold Express.json, mbind, M_bind, get_world. now rewrite H.
Qed.

Lemma keeps_end : keeps_answer Express.end_.
Proof.
  intros w x H. unfold Express.end_, mbind, M_bind, get_world. now rewrite H.
Qed.

Create HintDb answer.
#[local] Hint Resolve keeps_ret keeps_throw keeps_get_world keeps_status
  keeps_json keeps_end : answer.

(** Composite computations: split at every bind, handler and branch. *)
Ltac keeps :=
  repeat first
    [ progress intros
    | solve [auto with answer]
    | solve [apply keeps_modify; reflexivity]
    | progress unfold Express.send
    | apply keeps_bind
    | apply keeps_try
    | case_match ].

Ltac unfold_calls :=
  unfold userExtractor, blogs_post, blogs_delete, blogs_put, errorHandler,
    unknownEndpoint, jwt_verify_token, User_findById, Blog_save, User_save,
    Blog_findByIdAndDelete, Blog_findByIdAndUpdate, request_user, new_Blog
    in *.

Ltac unfold_handlers :=
  unfold after_router, handle_errors in *; unfold_calls;
  unfold Express.status, Express.send, Express.json, Express.end_,
    Express.finalhandler in *.

Ltac unfold_monad :=
  unfold try_catch, throw, modify, get_world, mbind, M_bind, mret, M_ret,
    call in *.

Section Properties.

Variable jwt_verify : string -> JwtOutcome.
Variable castObjectId : string -> option ObjectId.
Variable newObjectId : ObjectId.
Variable given_id : list (string * string) -> option string.
Variable castString_other : Json -> Cast string.
Variable castNumber_other : Json -> Cast Z.

Local Abbreviation app :=
  (app jwt_verify castObjectId newObjectId given_id
          castString_other castNumber_other).
Local Abbreviation requester := (requester jwt_verify castObjectId).
Local Abbreviation unauthenticated := (unauthenticated jwt_verify).
Local Abbreviation userExtractor := (userExtractor jwt_verify castObjectId).
Local Abbreviation blogs_post :=
  (blogs_post castObjectId newObjectId given_id
          castString_other castNumber_other).
Local Abbreviation blogs_delete := (blogs_delete castObjectId).
Local Abbreviation blogs_put :=
  (blogs_put castObjectId castString_other castNumber_other).
Local Abbreviation castString := (castString castString_other).
Local Abbreviation castNumber := (castNumber castNumber_other).
Local Abbreviation castUpdate := (castUpdate castString_other castNumber_other).
Local Abbreviation document_id :=
  (document_id castObjectId newObjectId given_id).
Local Abbreviation new_Blog :=
  (new_Blog castObjectId newObjectId given_id
          castString_other castNumber_other).

Lemma run_stack_last (h : Request -> M Flow) (request : Request) (w : World) :
  run_stack [h] request w = call (h request) w.
Proof. simpl. destruct (call (h request) w) as [[| |] w']; reflexivity. Qed.

(** A valid token: [userExtractor] loads the user and calls [next()]. *)
Lemma userExtractor_valid (request : Request) (d : Db) (u : Document User.t) :
  requester request d = Some u ->
  call (userExtractor request) (arrived request d)
  = (Next, set_req_user (Some u) (arrived request d)).
Proof.
  unfold requester, arrived. intros H.
  unfold_handlers. unfold_monad. simpl.
  destruct (presented_token request) as [t|]; [|discriminate].
  destruct (jwt_verify t) as [p| | |]; try discriminate.
  destruct (tok_id p) as [i|]; simpl in *; [|discriminate].
  destruct (i =? ""); [discriminate|]. simpl.
  destruct (castObjectId i) as [o|]; [|discriminate]. simpl.
  now rewrite H.
Qed.

(** A missing, invalid or expired token: [userExtractor] calls
    [next(error)] with an error that [errorHandler] answers with 401. *)
Lemma userExtractor_unauthenticated (request : Request) (d : Db) :
  unauthenticated request = true ->
  exists e,
    call (userExtractor request) (arrived request d) = (NextError e, arrived request d)
    /\ (error_name e = "JsonWebTokenError" \/ error_name e = "TokenExpiredError").
Proof.
  unfold unauthenticated, arrived. intros H.
  unfold_handlers. unfold_monad. simpl.
  destruct (presented_token request) as [t|]; [|eauto].
  destruct (jwt_verify t) as [p|m| |]; try discriminate; eauto.
Qed.

Lemma stack_authenticated (h : Request -> M Flow) (request : Request) (d : Db)
  (u : Document User.t) :
  requester request d = Some u ->
  run_stack [userExtractor; h] request (arrived request d)
  = call (h request) (set_req_user (Some u) (arrived request d)).
Proof.
  intros H.
  change (run_stack _ request ?w)
    with (match call (userExtractor request) w with
          | (Next, w') => run_stack [h] request w'
          | stop => stop
          end).
  rewrite (userExtractor_valid _ _ _ H). apply run_stack_last.
Qed.

Lemma app_after_token (request : Request) (d : Db) :
  app request d
  = after_router request
      (run_stack (route jwt_verify castObjectId newObjectId given_id castString_other
                        castNumber_other request)
                 request (arrived request d)).
Proof.
  unfold app.
  change (run_stack (tokenExtractor :: ?r) request ?w)
    with (match call (tokenExtractor request) w with
          | (Next, w') => run_stack r request w'
          | stop => stop
          end).
  now rewrite tokenExtractor_spec.
Qed.

Lemma requester_stored (request : Request) (d : Db) (u : Document User.t) :
  requester request d = Some u -> userColl d !! _id u = Some (paths u).
Proof.
  unfold requester. intros H.
  repeat case_match; simplify_eq.
  destruct (userColl d !! _) eqn:E; simpl in H; simplify_eq. done.
Qed.

Lemma includes_In (l : list string) (x : string) :
  includes l x = true <-> In x l.
Proof.
  unfold includes. rewrite existsb_exists. split.
  - intros (y & Hy & E). apply String.eqb_eq in E. now subst.
  - intros H. exists x. split; [done | apply String.eqb_refl].
Qed.

Lemma validate_new_inl (n : NewBlog) (doc : Document Blog.t) :
  validate_new n = inl doc <->
  exists o t a u l,
    n_id n = Some o /\ n_title n = Casts (Some t) /\ n_author n = Casts a /\
    n_url n = Casts (Some u) /\ n_likes n = Casts l /\
    t <> "" /\ u <> "" /\
    doc = mkDoc o (Blog.mk t a u l (n_user n)).
Proof.
  unfold validate_new. split.
  - destruct (n_id n) as [o|]; [|discriminate].
    destruct (n_title n) as [[t|]|]; try discriminate.
    destruct (n_author n) as [a|]; try discriminate.
    destruct (n_url n) as [[u|]|]; try discriminate.
    destruct (n_likes n) as [l|]; try discriminate.
    simpl. destruct (t =? "") eqn:Et; [discriminate|].
    destruct (u =? "") eqn:Eu; [discriminate|]. simpl.
    intros [= <-]. apply String.eqb_neq in Et, Eu.
    exists o, t, a, u, l. auto 10.
  - intros (o & t & a & u & l & -> & -> & -> & -> & -> & Ht & Hu & ->).
    apply String.eqb_neq in Ht, Hu. simpl. now rewrite Ht, Hu.
Qed.

(** The handlers keep the answer. *)
Lemma keeps_blogs_post (request : Request) : keeps_answer (blogs_post request).
Proof. unfold_calls. keeps. Qed.

Lemma keeps_blogs_delete (request : Request) : keeps_answer (blogs_delete request).
Proof. unfold_calls. keeps. Qed.

Lemma keeps_errorHandler (e : Error) : keeps_answer (errorHandler e).
Proof. unfold_calls. keeps. Qed.

Lemma keeps_unknownEndpoint (request : Request) :
  keeps_answer (unknownEndpoint request).
Proof. unfold_calls. keeps. Qed.

Lemma call_keeps (m : M Flow) (w : World) (x : nat * Payload) :
  keeps_answer m -> sent (response w) = Some x ->
  sent (response (snd (call m w))) = Some x.
Proof.
  intros Hm H. specialize (Hm w x H). unfold call.
  now destruct (m w) as [[f|e] w'].
Qed.

(** Once a handler of the route has written the answer, that is what the
    client gets, whatever the rest of the route and the error handlers do. *)
Lemma after_router_keeps (request : Request) (f : Flow) (w : World)
  (x : nat * Payload) :
  sent (response w) = Some x ->
  sent (response (after_router request (f, w))) = Some x.
Proof.
  intros H.
  assert (forall o, sent (response (snd o)) = Some x ->
                    sent (response (handle_errors o)) = Some x) as He.
  { intros [f' w'] H'. simpl in H'. unfold handle_errors.
    destruct f'; try exact H'.
    pose proof (call_keeps _ _ _ (keeps_errorHandler error) H') as Hc.
    revert Hc.
    destruct (call (errorHandler error) w') as [[| |] w'']; simpl;
      intros Hc; try exact Hc.
    unfold Express.finalhandler. now rewrite Hc. }
  unfold after_router. destruct f; apply He; simpl; try exact H.
  now apply call_keeps; [apply keeps_unknownEndpoint|].
Qed.

Lemma stack_next (h : Request -> M Flow) (request : Request) (w w' : World) :
  call (userExtractor request) w = (Next, w') ->
  run_stack [userExtractor; h] request w = call (h request) w'.
Proof.
  intros E.
  change (run_stack _ request w)
    with (match call (userExtractor request) w with
          | (Next, w1) => run_stack [h] request w1
          | stop => stop
          end).
  rewrite E. apply run_stack_last.
Qed.

Lemma stack_error (h : Request -> M Flow) (request : Request) (w w' : World)
  (e : Error) :
  call (userExtractor request) w = (NextError e, w') ->
  run_stack [userExtractor; h] request w = (NextError e, w').
Proof.
  intros E.
  change (run_stack _ request w)
    with (match call (userExtractor request) w with
          | (Next, w1) => run_stack [h] request w1
          | stop => stop
          end).
  now rewrite E.
Qed.

Lemma stack_answered (h : Request -> M Flow) (request : Request) (w : World)
  (x : nat * Payload) :
  keeps_answer (h request) ->
  sent (response (snd (call (userExtractor request) w))) = Some x ->
  status_of (after_router request (run_stack [userExtractor; h] request w))
  = Some (fst x).
Proof.
  intros Hh H. unfold status_of.
  destruct (call (userExtractor request) w) as [f w'] eqn:E. simpl in H.
  destruct f.
  - rewrite (stack_next _ _ _ _ E).
    pose proof (call_keeps _ _ _ Hh H) as Hc. revert Hc.
    destruct (call (h request) w') as [f' w'']. intros Hc. simpl in Hc.
    now rewrite (after_router_keeps _ _ _ _ Hc).
  - rewrite (stack_error _ _ _ _ _ E).
    now rewrite (after_router_keeps _ _ _ _ H).
  - change (run_stack _ request w)
      with (match call (userExtractor request) w with
            | (Next, w1) => run_stack [h] request w1
            | stop => stop
            end).
    rewrite E. now rewrite (after_router_keeps _ _ _ _ H).
Qed.

(** What [userExtractor] does when the token does not resolve to a user:
    it has written 401 itself, or it calls [next(error)] with an error of
    jsonwebtoken or a CastError, or it calls [next()] with a null user. *)
Lemma userExtractor_unresolved (request : Request) (d : Db) :
  requester request d = None ->
  (exists p, sent (response (snd (call (userExtractor request) (arrived request d))))
             = Some (401, p)) \/
  (exists e, call (userExtractor request) (arrived request d)
             = (NextError e, arrived request d) /\
             In (error_name e) ["JsonWebTokenError"; "TokenExpiredError";
                                "NotBeforeError"; "CastError"]) \/
  call (userExtractor request) (arrived request d) = (Next, arrived request d).
Proof.
  unfold requester, arrived. intros Hr.
  unfold userExtractor, jwt_verify_token, User_findById.
  unfold_monad. simpl.
  destruct (presented_token request) as [t|];
    [|right; left; eexists; split; [reflexivity | simpl; auto]].
  destruct (jwt_verify t) as [p|m| |];
    try (right; left; eexists; split; [reflexivity | simpl; now auto]).
  destruct (tok_id p) as [i|]; simpl in *; [|left; eauto].
  destruct (i =? ""); simpl.
  - left. destruct (castObjectId i); simpl; eauto.
  - destruct (castObjectId i) as [o|]; simpl;
      [|right; left; eexists; split; [reflexivity | simpl; now auto 6]].
    destruct (userColl d !! o); simpl in *; [discriminate|].
    right; right. reflexivity.
Qed.

(** A route that starts with [userExtractor] and whose handler reads
    [request.user] answers a request without a valid token with 400, 401
    or 500. *)
Lemma unresolved_status (h : Request -> M Flow) (request : Request) (d : Db) :
  keeps_answer (h request) ->
  (forall w, req_user w = None -> sent (response w) = None ->
             exists e, call (h request) w = (NextError e, w)
                       /\ error_name e = "TypeError") ->
  requester request d = None ->
  In (status_of (after_router request
                   (run_stack [userExtractor; h] request (arrived request d))))
     [Some 400; Some 401; Some 500].
Proof.
  intros Hk Hnull Hr.
  destruct (userExtractor_unresolved _ _ Hr) as [[p Hp] | [(e & E & He) | E]].
  - rewrite (stack_answered _ _ _ _ Hk Hp). simpl. auto.
  - rewrite (stack_error _ _ _ _ _ E).
    unfold after_router, handle_errors, errorHandler, status_of, arrived.
    simpl in He. destruct He as [He | [He | [He | [He | []]]]];
      rewrite <- He; simpl; auto.
  - rewrite (stack_next _ _ _ _ E).
    destruct (Hnull (arrived request d) eq_refl eq_refl) as (e & -> & He).
    unfold after_router, handle_errors, errorHandler, status_of, arrived.
    rewrite He. simpl. auto.
Qed.

Lemma blogs_post_null_user (request : Request) (w : World) :
  req_user w = None -> sent (response w) = None ->
  exists e, call (blogs_post request) w = (NextError e, w)
            /\ error_name e = "TypeError".
Proof.
  intros Hu _. unfold_handlers. unfold_monad. rewrite Hu. simpl. eauto.
Qed.

Lemma blogs_delete_null_user (request : Request) (w : World) :
  req_user w = None -> sent (response w) = None ->
  exists e, call (blogs_delete request) w = (NextError e, w)
            /\ error_name e = "TypeError".
Proof.
  intros Hu _. unfold_handlers. unfold_monad. rewrite Hu. simpl. eauto.
Qed.

(** Only a request with a valid token is answered with 201. *)
Lemma post_created_requester (request : Request) (d : Db) :
  method request = POST ->
  status_of (app request d) = Some 201 ->
  exists u, requester request d = Some u.
Proof.
  intros Hm. rewrite app_after_token. unfold route. rewrite Hm. intros H.
  destruct (requester request d) as [u|] eqn:Hr; [eauto|].
  pose proof (unresolved_status _ request d (keeps_blogs_post request)
                (blogs_post_null_user request) Hr) as Hin.
  rewrite H in Hin. simpl in Hin. intuition discriminate.
Qed.

Ltac run_authenticated Hm Hu :=
  rewrite app_after_token; unfold route; rewrite Hm;
  rewrite (stack_authenticated _ _ _ _ Hu);
  unfold arrived, set_req_user; simpl;
  unfold_handlers; unfold_monad; simpl.

(** Every outcome of a POST with a valid token: 400 when the new document
    does not pass the validation, 500 when its [_id] is taken, and
    otherwise 201 with the document, which is stored, its id appended to
    the [blogs] of the stored user. *)
Lemma post_authenticated (request : Request) (d : Db) (u : Document User.t) :
  method request = POST ->
  requester request d = Some u ->
  match validate_new
          (new_Blog
             (with_user (_id u)
                (with_likes (nullish_json (b_likes (body request)) (JNumber 0))
                   (with_author (nullish (User.name (paths u)) "unknown")
                      (spread (body request)))))) with
  | inr _ => status_of (app request d) = Some 400 /\ db (app request d) = d
  | inl doc =>
      match blogColl d !! _id doc with
      | Some _ => status_of (app request d) = Some 500 /\ db (app request d) = d
      | None =>
          status_of (app request d) = Some 201 /\
          payload_of (app request d) = Some (BlogJson doc) /\
          db (app request d)
          = mkDb (<[_id doc := paths doc]> (blogColl d))
                 (<[_id u := User.with_blogs (paths u)
                                (User.blogs (paths u) ++ [_id doc])]> (userColl d))
      end
  end.
Proof.
  intros Hm Hu. pose proof (requester_stored _ _ _ Hu) as Hs.
  run_authenticated Hm Hu.
  destruct (validate_new _) as [doc|errors]; simpl.
  - destruct (blogColl d !! _id doc); simpl.
    + split; [reflexivity | now destruct d].
    + repeat split. f_equal.
      apply map_eq. intros k. rewrite lookup_alter, lookup_insert.
      case_decide; subst; [now rewrite Hs | reflexivity].
  - split; [reflexivity | now destruct d].
Qed.

(** What a POST that is answered 201 has done. *)
Lemma post_created (request : Request) (d : Db) :
  method request = POST ->
  status_of (app request d) = Some 201 ->
  exists u o b,
    requester request d = Some u /\
    document_id (b_others (body request)) = Some o /\
    blogColl d !! o = None /\
    payload_of (app request d) = Some (BlogJson (mkDoc o b)) /\
    db (app request d)
    = mkDb (<[o := b]> (blogColl d))
           (<[_id u := User.with_blogs (paths u) (User.blogs (paths u) ++ [o])]>
              (userColl d)) /\
    cast_path castString (b_title (body request)) None = Casts (Some (Blog.title b)) /\
    Blog.title b <> "" /\
    Blog.author b = Some (nullish (User.name (paths u)) "unknown") /\
    cast_path castString (b_url (body request)) None = Casts (Some (Blog.url b)) /\
    Blog.url b <> "" /\
    castNumber (nullish_json (b_likes (body request)) (JNumber 0))
    = Casts (Blog.likes b) /\
    Blog.user b = Some (_id u).
Proof.
  intros Hm H201.
  destruct (post_created_requester _ _ Hm H201) as [u Hu].
  pose proof (post_authenticated _ _ _ Hm Hu) as H.
  destruct (validate_new _) as [doc|errors] eqn:V;
    [|destruct H as [H _]; congruence].
  destruct (blogColl d !! _id doc) eqn:Hnew;
    [destruct H as [H _]; congruence|].
  destruct H as (_ & Hp & Hd).
  apply validate_new_inl in V
    as (o & t & a & l & n & Ho & Ht & Ha & Hl & Hn & Hte & Hle & ->).
  simpl in *. injection Ha as <-.
  exists u, o. eexists. repeat split; try eassumption; reflexivity.
Qed.

(** C3. For every create request that succeeds (201): the token is valid
    and resolves to a stored user [u], the body contains a title and a
    url, and a new blog is persisted, under an id [o] that no blog had,
    with the id of [u] as its [user]; it is the blog that is returned; and
    the stored [u] then has its [blogs] followed by [o], and is otherwise
    unchanged. *)
Theorem post_links_blog_and_user (request : Request) (d : Db) :
  method request = POST ->
  status_of (app request d) = Some 201 ->
  exists u o b u',
    requester request d = Some u /\
    is_Some (b_title (body request)) /\
    is_Some (b_url (body request)) /\
    document_id (b_others (body request)) = Some o /\
    blogColl d !! o = None /\
    payload_of (app request d) = Some (BlogJson (mkDoc o b)) /\
    blogColl (db (app request d)) !! o = Some b /\
    Blog.user b = Some (_id u) /\
    userColl (db (app request d)) !! _id u = Some u' /\
    User.blogs u' = (User.blogs (paths u) ++ [o])%list /\
    User.username u' = User.username (paths u) /\
    User.name u' = User.name (paths u) /\
    User.passwordHash u' = User.passwordHash (paths u).
Proof.
  intros Hm H201.
  destruct (post_created _ _ Hm H201)
    as (u & o & b & Hu & Ho & Hnew & Hp & Hd & Ht & _ & _ & Hl & _ & _ & Hb).
  exists u, o, b. eexists. rewrite Hd. simpl. rewrite !lookup_insert_eq.
  split; [exact Hu|].
  split; [destruct (b_title (body request)); [eauto | discriminate]|].
  split; [destruct (b_url (body request)); [eauto | discriminate]|].
  repeat split; auto.
Qed.

(** C7. For every create request whose bearer token is missing, invalid or
    expired, the answer is 401 and the database is left as it was: no blog
    is persisted. *)
Theorem post_unauthenticated_401 (request : Request) (d : Db) :
  method request = POST ->
  unauthenticated request = true ->
  status_of (app request d) = Some 401 /\ db (app request d) = d.
Proof.
  intros Hm Hbad. rewrite app_after_token. unfold route. rewrite Hm.
  change (run_stack _ request ?w)
    with (match call (userExtractor request) w with
          | (Next, w') => run_stack [blogs_post] request w'
          | stop => stop
          end).
  destruct (userExtractor_unauthenticated _ d Hbad) as (e & -> & He).
  unfold_handlers. unfold_monad. unfold arrived, status_of.
  destruct He as [-> | ->]; simpl; auto.
Qed.

(** C8. For every successful create: when the body omits author, the
    author of the created blog, which is the blog that is returned and
    stored, is the name of the requesting user, or "unknown" when that
    user has no name; when the body omits likes, the likes of the created
    blog are 0. *)
Theorem post_defaults (request : Request) (d : Db) :
  method request = POST ->
  status_of (app request d) = Some 201 ->
  exists u o b,
    requester request d = Some u /\
    document_id (b_others (body request)) = Some o /\
    payload_of (app request d) = Some (BlogJson (mkDoc o b)) /\
    blogColl (db (app request d)) !! o = Some b /\
    (b_author (body request) = None ->
     Blog.author b = Some (match User.name (paths u) with
                           | Some n => n
                           | None => "unknown"
                           end)) /\
    (b_likes (body request) = None -> Blog.likes b = Some 0%Z).
Proof.
  intros Hm H201.
  destruct (post_created _ _ Hm H201)
    as (u & o & b & Hu & Ho & _ & Hp & Hd & _ & _ & Ha & _ & _ & Hl & _).
  exists u, o, b. rewrite Hd. simpl. rewrite lookup_insert_eq.
  repeat split; auto.
  intros El. rewrite El in Hl. simpl in Hl. congruence.
Qed.

(** C9. For every successful create, the author of the created blog,
    which is the blog that is returned and stored, is the name of the
    requesting user, or "unknown" when that user has no name, whatever
    the body gives as author: a request that differs only in the author
    of its body has the same outcome. *)
Theorem post_author_overridden (request : Request) (d : Db) :
  method request = POST ->
  status_of (app request d) = Some 201 ->
  (exists u o b,
     requester request d = Some u /\
     document_id (b_others (body request)) = Some o /\
     payload_of (app request d) = Some (BlogJson (mkDoc o b)) /\
     blogColl (db (app request d)) !! o = Some b /\
     Blog.author b = Some (match User.name (paths u) with
                           | Some n => n
                           | None => "unknown"
                           end)) /\
  (forall a,
     app (with_body (with_body_author a (body request)) request) d
     = app request d).
Proof.
  intros Hm H201. split.
  - destruct (post_created _ _ Hm H201)
      as (u & o & b & Hu & Ho & _ & Hp & Hd & _ & _ & Ha & _).
    exists u, o, b. rewrite Hd. simpl. rewrite lookup_insert_eq. auto.
  - intros a. unfold app, route, with_body. simpl. rewrite Hm. reflexivity.
Qed.

(* --------------------------------------------------------------------- *)
(** *** DELETE /api/blogs/:id *)

(** The outcome of a DELETE with a valid token.  The answer of the
    ownership check is written first and is what the client keeps; the
    handler goes on to [findByIdAndDelete] in both cases. *)
Lemma delete_authenticated (request : Request) (d : Db) (u : Document User.t) :
  method request = DELETE ->
  requester request d = Some u ->
  let owned := includes (User.blogs (paths u)) (params_id request) in
  match castObjectId (params_id request) with
  | Some o =>
      status_of (app request d) = Some (if owned then 204 else 401) /\
      db (app request d) = mkDb (delete o (blogColl d)) (userColl d)
  | None =>
      status_of (app request d) = Some (if owned then 400 else 401) /\
      db (app request d) = d
  end.
Proof.
  intros Hm Hu. run_authenticated Hm Hu. rewrite map_id.
  destruct (includes _ _); simpl;
    destruct (castObjectId (params_id request)); simpl;
    split; try reflexivity; now destruct d.
Qed.

(** Only a request with a valid token is answered with 204. *)
Lemma delete_done_requester (request : Request) (d : Db) :
  method request = DELETE ->
  status_of (app request d) = Some 204 ->
  exists u, requester request d = Some u.
Proof.
  intros Hm. rewrite app_after_token. unfold route. rewrite Hm. intros H.
  destruct (requester request d) as [u|] eqn:Hr; [eauto|].
  pose proof (unresolved_status _ request d (keeps_blogs_delete request)
                (blogs_delete_null_user request) Hr) as Hin.
  rewrite H in Hin. simpl in Hin. intuition discriminate.
Qed.

(** Frame conditions: the error handlers and [userExtractor] do not write
    to the database, and the DELETE handler does not write to the users. *)
Lemma handle_errors_db (outcome : Flow * World) :
  db (handle_errors outcome) = db (snd outcome).
Proof.
  destruct outcome as [f w]. unfold_handlers. unfold_monad. simpl.
  repeat (case_match; simpl in *; simplify_eq); reflexivity.
Qed.

Lemma after_router_db (request : Request) (outcome : Flow * World) :
  db (after_router request outcome) = db (snd outcome).
Proof.
  unfold after_router. destruct outcome as [[| |] w];
    rewrite handle_errors_db; [|reflexivity..].
  unfold_handlers. unfold_monad. simpl.
  repeat (case_match; simpl in *; simplify_eq); reflexivity.
Qed.

Lemma userExtractor_db (request : Request) (w : World) :
  db (snd (call (userExtractor request) w)) = db w.
Proof.
  unfold_handlers. unfold_monad. simpl.
  repeat (case_match; simpl in *; simplify_eq); reflexivity.
Qed.

Lemma blogs_delete_users (request : Request) (w : World) :
  userColl (db (snd (call (blogs_delete request) w))) = userColl (db w).
Proof.
  unfold_handlers. unfold_monad. simpl.
  repeat (case_match; simpl in *; simplify_eq); reflexivity.
Qed.

(** No DELETE request, whatever its answer, changes a user. *)
Lemma delete_users_unchanged (request : Request) (d : Db) :
  method request = DELETE ->
  userColl (db (app request d)) = userColl d.
Proof.
  intros Hm. rewrite app_after_token. unfold route. rewrite Hm.
  change (run_stack _ request ?w)
    with (match call (userExtractor request) w with
          | (Next, w') => run_stack [blogs_delete] request w'
          | stop => stop
          end).
  pose proof (userExtractor_db request (arrived request d)) as H1.
  destruct (call (userExtractor request) (arrived request d)) as [f w1].
  simpl in H1. rewrite after_router_db.
  destruct f; lazy beta iota;
    [rewrite run_stack_last, blogs_delete_users | ..];
    simpl; now rewrite H1.
Qed.

(** C5. No DELETE request changes the [blogs] of any user; and for every
    successful delete (204), the requester owns the id, the blog is gone
    from the blogs, and the owner is stored as before, the id of the
    deleted blog still in its [blogs]. *)
Theorem delete_keeps_back_reference (request : Request) (d : Db) :
  method request = DELETE ->
  userColl (db (app request d)) = userColl d /\
  (status_of (app request d) = Some 204 ->
   exists u o,
     requester request d = Some u /\
     castObjectId (params_id request) = Some o /\
     In (params_id request) (User.blogs (paths u)) /\
     blogColl (db (app request d)) !! o = None /\
     userColl (db (app request d)) !! _id u = Some (paths u)).
Proof.
  intros Hm. split; [now apply delete_users_unchanged|]. intros H204.
  destruct (delete_done_requester _ _ Hm H204) as [u Hu].
  pose proof (delete_authenticated _ _ _ Hm Hu) as H. simpl in H.
  pose proof (requester_stored _ _ _ Hu) as Hs.
  destruct (castObjectId (params_id request)) as [o|];
    destruct H as [Hst Hdb]; rewrite Hst in H204;
    destruct (includes _ _) eqn:Hown; try discriminate.
  exists u, o. rewrite Hdb. simpl.
  split; [exact Hu|]. split; [reflexivity|].
  split; [now apply includes_In|].
  split; [apply lookup_delete_eq | exact Hs].
Qed.

(* --------------------------------------------------------------------- *)
(** *** PUT /api/blogs/:id *)

Lemma apply_update_empty (upd : CastedUpdate) (b : Blog.t) :
  update_is_empty upd = true -> apply_update upd b = b.
Proof.
  unfold update_is_empty, apply_update.
  destruct upd as [[?|] [?|] [?|] [?|]]; simpl; try discriminate.
  now destruct b.
Qed.

Lemma castUpdate_inl (u : BlogUpdate) (upd : CastedUpdate) :
  castUpdate u = inl upd ->
  cast_key castString (u_title u) = inl (c_title upd) /\
  cast_key castString (u_author u) = inl (c_author upd) /\
  cast_key castNumber (u_likes u) = inl (c_likes upd) /\
  cast_key castString (u_url u) = inl (c_url upd).
Proof.
  unfold castUpdate.
  destruct (cast_key _ (u_title u)); [|discriminate].
  destruct (cast_key _ (u_author u)); [|discriminate].
  destruct (cast_key _ (u_likes u)); [|discriminate].
  destruct (cast_key _ (u_url u)); [|discriminate].
  now intros [= <-].
Qed.

(** Every outcome of a PUT: 400 when the id or a value of the update is
    not cast, 400 when the update does not pass its validators, 404 when
    no blog has the id, and otherwise 200 with the updated blog. *)
Lemma put_outcome (request : Request) (d : Db) :
  method request = PUT ->
  match castObjectId (params_id request) with
  | None =>
      sent (response (app request d)) = Some (400, ErrorJson "malformatted id")
      /\ db (app request d) = d
  | Some o =>
      match castUpdate (update_of (body request)) with
      | inr _ =>
          sent (response (app request d))
          = Some (400, ErrorJson "malformatted id")
          /\ db (app request d) = d
      | inl upd =>
          if negb (update_is_empty upd)
             && negb (Nat.eqb (List.length (validate_update upd)) 0)
          then sent (response (app request d))
               = Some (400, ErrorJson ("Validation failed: "
                                       ++ join_messages (validate_update upd)))
               /\ db (app request d) = d
          else
            match blogColl d !! o with
            | None =>
                sent (response (app request d)) = Some (404, NoBody)
                /\ db (app request d) = d
            | Some b =>
                sent (response (app request d))
                = Some (200, BlogJson (mkDoc o (apply_update upd b)))
                /\ db (app request d)
                   = mkDb (<[o := apply_update upd b]> (blogColl d)) (userColl d)
            end
      end
  end.
Proof.
  intros Hm.
  destruct (castObjectId (params_id request)) as [o|] eqn:Ho.
  - destruct (castUpdate (update_of (body request))) as [upd|v] eqn:Hc.
    + destruct (update_is_empty upd) eqn:Hempty;
        [|destruct (validate_update upd) as [|e errors] eqn:Hv];
        simpl;
        try (destruct (blogColl d !! o) as [b|] eqn:Hb;
             try rewrite (apply_update_empty _ b Hempty);
             try (rewrite insert_id by exact Hb));
        rewrite app_after_token; unfold route, arrived; rewrite Hm; simpl;
        unfold_handlers; unfold_monad; unfold update_of in *; simpl;
        rewrite Ho; simpl; rewrite Hc; simpl; rewrite Hempty;
        try rewrite Hv; try rewrite Hb; simpl;
        split; try reflexivity; now destruct d.
    + rewrite app_after_token; unfold route, arrived; rewrite Hm; simpl.
      unfold_handlers; unfold_monad; unfold update_of in *; simpl.
      rewrite Ho. simpl. rewrite Hc. simpl.
      split; [reflexivity | now destruct d].
  - rewrite app_after_token; unfold route, arrived; rewrite Hm; simpl.
    unfold_handlers; unfold_monad; unfold update_of in *; simpl.
    rewrite Ho. simpl. split; [reflexivity | now destruct d].
Qed.

(** A PUT changes at most the blog that its id casts to, and there only
    title, author, likes and url. *)
Lemma put_frame (request : Request) (d : Db) :
  method request = PUT ->
  userColl (db (app request d)) = userColl d /\
  match castObjectId (params_id request) with
  | None => blogColl (db (app request d)) = blogColl d
  | Some o =>
      blogColl (db (app request d)) = blogColl d \/
      exists upd b,
        castUpdate (update_of (body request)) = inl upd /\
        blogColl d !! o = Some b /\
        blogColl (db (app request d)) = <[o := apply_update upd b]> (blogColl d)
  end.
Proof.
  intros Hm. pose proof (put_outcome request d Hm) as H.
  destruct (castObjectId (params_id request)) as [o|];
    [|destruct H as [_ ->]; auto].
  destruct (castUpdate _) as [upd|v] eqn:Hc; [|destruct H as [_ ->]; auto].
  destruct (negb _ && negb _); [destruct H as [_ ->]; auto|].
  destruct (blogColl d !! o) as [b|] eqn:Hb; destruct H as [_ ->]; simpl;
    [|auto].
  split; [reflexivity|]. right. exists upd, b. auto.
Qed.

(** C4, as amended.  For every update request whose id casts to an
    ObjectId and whose update document passes the cast and the update
    validators (no value that is not cast to the type of its path, no
    title or url that is null or empty): when no blog has that id the
    answer is 404 and nothing is changed; when one has, the answer is 200
    with the updated blog, which is what is then stored: it has the title,
    author, likes and url that the body gives, those of the stored blog
    where the body gives none, and the user of the stored blog. *)
Theorem put_not_found_or_updated (request : Request) (d : Db) (o : ObjectId)
  (upd : CastedUpdate) :
  method request = PUT ->
  castObjectId (params_id request) = Some o ->
  castUpdate (update_of (body request)) = inl upd ->
  validate_update upd = nil ->
  (blogColl d !! o = None ->
   status_of (app request d) = Some 404 /\ db (app request d) = d) /\
  (forall b, blogColl d !! o = Some b ->
   let b' := apply_update upd b in
   status_of (app request d) = Some 200 /\
   payload_of (app request d) = Some (BlogJson (mkDoc o b')) /\
   blogColl (db (app request d)) !! o = Some b' /\
   Blog.user b' = Blog.user b /\
   (forall t, b_title (body request) = Some (JString t) -> Blog.title b' = t) /\
   (b_title (body request) = None -> Blog.title b' = Blog.title b) /\
   (forall a, b_author (body request) = Some (JString a) ->
              Blog.author b' = Some a) /\
   (b_author (body request) = None -> Blog.author b' = Blog.author b) /\
   (forall n, b_likes (body request) = Some (JNumber n) ->
              Blog.likes b' = Some n) /\
   (b_likes (body request) = None -> Blog.likes b' = Blog.likes b) /\
   (forall l, b_url (body request) = Some (JString l) -> Blog.url b' = l) /\
   (b_url (body request) = None -> Blog.url b' = Blog.url b)).
Proof.
  intros Hm Ho Hc Hv. pose proof (put_outcome request d Hm) as H.
  rewrite Ho, Hc, Hv in H. simpl in H. rewrite andb_false_r in H.
  unfold status_of, payload_of. split.
  - intros Hb. rewrite Hb in H. destruct H as [-> ->]. auto.
  - intros b Hb. cbv zeta. rewrite Hb in H. destruct H as [-> ->]. simpl.
    rewrite lookup_insert_eq.
    apply castUpdate_inl in Hc as (Ht & Ha & Hn & Hl). simpl in Ht, Ha, Hn, Hl.
    repeat split; try reflexivity; intros;
      match goal with
      | E : _ (body request) = _ |- _ => rewrite E in *
      end; simpl in *; simplify_eq;
      repeat match goal with
      | E : _ = _ upd |- _ => rewrite <- E; clear E
      end; reflexivity.
Qed.

(** C6. For every update request on an existing blog: the blog is still
    stored and has the [user] it had, every other blog and every user is
    as before, and the properties of the body other than title, author,
    likes and url have no effect on the outcome. *)
Theorem put_only_permitted_fields (request : Request) (d : Db) (o : ObjectId)
  (b : Blog.t) :
  method request = PUT ->
  castObjectId (params_id request) = Some o ->
  blogColl d !! o = Some b ->
  (exists b', blogColl (db (app request d)) !! o = Some b' /\
              Blog.user b' = Blog.user b) /\
  (forall o', o' <> o ->
     blogColl (db (app request d)) !! o' = blogColl d !! o') /\
  userColl (db (app request d)) = userColl d /\
  app (with_body (permitted (body request)) request) d = app request d.
Proof.
  intros Hm Ho Hb. destruct (put_frame _ d Hm) as [Hu H].
  rewrite Ho in H. repeat split.
  - destruct H as [-> | (upd & b0 & _ & Hb0 & ->)].
    + eauto.
    + rewrite lookup_insert_eq. eexists. split; [reflexivity|].
      simpl. congruence.
  - intros o' Hne. destruct H as [-> | (upd & b0 & _ & Hb0 & ->)]; [reflexivity|].
    now rewrite lookup_insert_ne.
  - exact Hu.
  - unfold app, route, with_body. simpl. rewrite Hm. reflexivity.
Qed.

(* --------------------------------------------------------------------- *)
(** *** userExtractor on a token without an id *)

(** C10. For every request whose token verifies but whose payload has no
    id: [userExtractor] writes a 401 response, sets [request.user] to what
    [User.findById(undefined)] finds, which is null, and calls [next()];
    the handler [h] registered after it runs on that world. *)
Theorem userExtractor_without_id (request : Request) (w : World)
  (t : string) (p : JwtPayload) (h : Request -> M Flow) :
  token w = Some t ->
  sent (response w) = None ->
  jwt_verify t = Decoded p ->
  tok_id p = None ->
  let w' := set_req_user None
              (set_response (mkResponse 401 (Some (401, ErrorJson "JWT invalid")))
                            w) in
  call (userExtractor request) w = (Next, w') /\
  run_stack [userExtractor; h] request w = call (h request) w'.
Proof.
  intros Ht Hs Hv Hid w'.
  assert (call (userExtractor request) w = (Next, w')) as E.
  { subst w'. unfold_handlers. unfold_monad. simpl.
    rewrite Ht, Hv. simpl. rewrite Hid. simpl. rewrite Hs. reflexivity. }
  split; [exact E|].
  change (run_stack _ request w)
    with (match call (userExtractor request) w with
          | (Next, w1) => run_stack [h] request w1
          | stop => stop
          end).
  rewrite E. apply run_stack_last.
Qed.

End Properties.

(* ===================================================================== *)
(** ** The handlers at concrete requests *)
(* ===================================================================== *)

(** What a DELETE by a user who does not own the id does: the client is
    answered 401, and the handler still reaches [findByIdAndDelete]. *)
Lemma delete_not_owned jwt_verify castObjectId newObjectId given_id
  castString_other
  castNumber_other (request : Request) (d : Db) (u : Document User.t) :
  method request = DELETE ->
  requester jwt_verify castObjectId request d = Some u ->
  ~ In (params_id request) (User.blogs (paths u)) ->
  status_of (app jwt_verify castObjectId newObjectId given_id castString_other
                 castNumber_other request d) = Some 401 /\
  db (app jwt_verify castObjectId newObjectId given_id castString_other
          castNumber_other request d)
  = match castObjectId (params_id request) with
    | Some o => mkDb (delete o (blogColl d)) (userColl d)
    | None => d
    end.
Proof.
  intros Hm Hu Hown.
  pose proof (delete_authenticated _ _ newObjectId given_id castString_other
                castNumber_other _ _ _ Hm Hu) as H.
  simpl in H.
  destruct (includes _ _) eqn:E; [apply includes_In in E; contradiction|].
  destruct (castObjectId (params_id request)); exact H.
Qed.

Module Runs.
Import Scenario.

(** C1 (the code diverges).  arto, with a valid token, deletes the blog of
    matti: its id is an ObjectId and is not among the blogs of arto.  The
    answer is 401, and the blog, stored before, is no longer stored. *)
Theorem delete_by_non_owner_removes_blog :
  requester jwt_verify castObjectId delete_foreign seed = Some arto_doc /\
  castObjectId (params_id delete_foreign) = Some go_to_statement /\
  ~ In (params_id delete_foreign) (User.blogs (paths arto_doc)) /\
  is_Some (blogColl seed !! go_to_statement) /\
  status_of (run delete_foreign seed) = Some 401 /\
  blogColl (db (run delete_foreign seed)) !! go_to_statement = None.
Proof.
  split; [vm_compute; reflexivity|]. split; [vm_compute; reflexivity|].
  split; [intros [E|[]]; vm_compute in E; discriminate|].
  split; [vm_compute; eauto|].
  split; vm_compute; reflexivity.
Qed.

(** C2 (the code diverges).  arto, with a valid token, deletes an id that
    does not cast to an ObjectId.  The ownership check answers first: the
    client gets 401, not 400; the database is not changed. *)
Theorem delete_malformed_id_401 :
  requester jwt_verify castObjectId delete_malformed seed = Some arto_doc /\
  castObjectId (params_id delete_malformed) = None /\
  status_of (run delete_malformed seed) = Some 401 /\
  status_of (run delete_malformed seed) <> Some 400 /\
  db (run delete_malformed seed) = seed.
Proof.
  split; [vm_compute; reflexivity|]. split; [vm_compute; reflexivity|].
  split; [vm_compute; reflexivity|].
  split; [vm_compute; discriminate | vm_compute; reflexivity].
Qed.

(** C3 at the POST of matti, and at the same POST with an [_id] that the
    client has chosen: 201, the blog stored with matti as its user, and
    its id appended to the blogs of matti. *)
Lemma post_links_blog_and_user_witness :
  (status_of (run post_by_matti seed) = Some 201 /\
   exists u o b u',
     requester jwt_verify castObjectId post_by_matti seed = Some u /\
     is_Some (b_title (body post_by_matti)) /\
     is_Some (b_url (body post_by_matti)) /\
     document_id castObjectId fresh_id given_id (b_others (body post_by_matti)) = Some o /\
     blogColl seed !! o = None /\
     payload_of (run post_by_matti seed) = Some (BlogJson (mkDoc o b)) /\
     blogColl (db (run post_by_matti seed)) !! o = Some b /\
     Blog.user b = Some (_id u) /\
     userColl (db (run post_by_matti seed)) !! _id u = Some u' /\
     User.blogs u' = (User.blogs (paths u) ++ [o])%list /\
     User.username u' = User.username (paths u) /\
     User.name u' = User.name (paths u) /\
     User.passwordHash u' = User.passwordHash (paths u)) /\
  (document_id castObjectId fresh_id given_id (b_others (body post_with_id)) = Some nowhere /\
   exists u o b u',
     requester jwt_verify castObjectId post_with_id seed = Some u /\
     is_Some (b_title (body post_with_id)) /\
     is_Some (b_url (body post_with_id)) /\
     document_id castObjectId fresh_id given_id (b_others (body post_with_id)) = Some o /\
     blogColl seed !! o = None /\
     payload_of (run post_with_id seed) = Some (BlogJson (mkDoc o b)) /\
     blogColl (db (run post_with_id seed)) !! o = Some b /\
     Blog.user b = Some (_id u) /\
     userColl (db (run post_with_id seed)) !! _id u = Some u' /\
     User.blogs u' = (User.blogs (paths u) ++ [o])%list /\
     User.username u' = User.username (paths u) /\
     User.name u' = User.name (paths u) /\
     User.passwordHash u' = User.passwordHash (paths u)).
Proof.
  assert (status_of (run post_by_matti seed) = Some 201) as H
    by (vm_compute; reflexivity).
  split.
  - split; [exact H|].
    apply (post_links_blog_and_user jwt_verify castObjectId fresh_id given_id
        castString_other castNumber_other post_by_matti seed);
      [reflexivity | exact H].
  - split; [vm_compute; reflexivity|].
    apply (post_links_blog_and_user jwt_verify castObjectId fresh_id given_id
        castString_other castNumber_other post_with_id seed);
      [reflexivity | vm_compute; reflexivity].
Defined.

(** C4, as stated, fails: no blog has the id, which is an ObjectId, and
    the answer to an empty title is 400, not 404. *)
Lemma put_missing_blog_empty_title_400 :
  method put_missing_empty_title = PUT /\
  castObjectId (params_id put_missing_empty_title) = Some nowhere /\
  blogColl seed !! nowhere = None /\
  status_of (run put_missing_empty_title seed) = Some 400 /\
  status_of (run put_missing_empty_title seed) <> Some 404.
Proof.
  split; [reflexivity|]. split; [vm_compute; reflexivity|].
  split; [vm_compute; reflexivity|].
  split; [vm_compute; reflexivity | vm_compute; discriminate].
Qed.

(** C4, as amended, at a PUT of a title on an id that no blog has, and on
    an existing blog. *)
Lemma put_not_found_or_updated_witness :
  (status_of (run put_missing seed) = Some 404 /\
   db (run put_missing seed) = seed) /\
  (status_of (run put_existing seed) = Some 200 /\
   payload_of (run put_existing seed)
   = Some (BlogJson (mkDoc react_patterns
             (Blog.mk "update" (Some "Michael Chan") "https://reactpatterns.com/"
                      (Some 7%Z) (Some arto)))) /\
   blogColl (db (run put_existing seed)) !! react_patterns
   = Some (Blog.mk "update" (Some "Michael Chan") "https://reactpatterns.com/"
                   (Some 7%Z) (Some arto))).
Proof.
  split.
  - apply (put_not_found_or_updated jwt_verify castObjectId fresh_id given_id
      castString_other castNumber_other put_missing seed nowhere
             (mkCasted (Some (Some "update")) None None None));
      [reflexivity | vm_compute; reflexivity | reflexivity | reflexivity
      | vm_compute; reflexivity].
  - destruct (proj2 (put_not_found_or_updated jwt_verify castObjectId fresh_id given_id
      castString_other castNumber_other put_existing seed
                       react_patterns
                       (mkCasted (Some (Some "update")) None None None)
                       eq_refl eq_refl eq_refl eq_refl)
                    (Blog.mk "React patterns" (Some "Michael Chan")
                             "https://reactpatterns.com/" (Some 7%Z) (Some arto))
                    eq_refl)
      as (Hs & Hp & Hb & _).
    split; [exact Hs|]. split; [exact Hp | exact Hb].
Defined.

(** C5 at the DELETE by arto of his own blog. *)
Lemma delete_keeps_back_reference_witness :
  status_of (run delete_own seed) = Some 204 /\
  userColl (db (run delete_own seed)) = userColl seed /\
  exists u o,
    requester jwt_verify castObjectId delete_own seed = Some u /\
    castObjectId (params_id delete_own) = Some o /\
    In (params_id delete_own) (User.blogs (paths u)) /\
    blogColl (db (run delete_own seed)) !! o = None /\
    userColl (db (run delete_own seed)) !! _id u = Some (paths u).
Proof.
  assert (status_of (run delete_own seed) = Some 204) as H
    by (vm_compute; reflexivity).
  split; [exact H|].
  destruct (delete_keeps_back_reference jwt_verify castObjectId fresh_id given_id
          castString_other castNumber_other
              delete_own seed eq_refl) as [Hu Hdone].
  split; [exact Hu | exact (Hdone H)].
Defined.

(** C6 at a PUT whose body carries a user and an extra property. *)
Lemma put_only_permitted_fields_witness :
  (exists b', blogColl (db (run put_existing seed)) !! react_patterns = Some b' /\
              Blog.user b' = Some arto) /\
  (forall o', o' <> react_patterns ->
     blogColl (db (run put_existing seed)) !! o' = blogColl seed !! o') /\
  userColl (db (run put_existing seed)) = userColl seed /\
  run (with_body (permitted retitle) put_existing) seed = run put_existing seed.
Proof.
  apply (put_only_permitted_fields jwt_verify castObjectId fresh_id given_id
          castString_other castNumber_other
           put_existing seed react_patterns
           (Blog.mk "React patterns" (Some "Michael Chan")
                    "https://reactpatterns.com/" (Some 7%Z) (Some arto)));
    [reflexivity | vm_compute; reflexivity | vm_compute; reflexivity].
Defined.

(** C7 at a POST without a token, and at one with an expired token. *)
Lemma post_unauthenticated_401_witness :
  (status_of (run post_no_token seed) = Some 401 /\
   db (run post_no_token seed) = seed) /\
  (status_of (run post_expired seed) = Some 401 /\
   db (run post_expired seed) = seed).
Proof.
  split.
  - apply (post_unauthenticated_401 jwt_verify castObjectId fresh_id given_id
          castString_other castNumber_other
             post_no_token seed); [reflexivity | vm_compute; reflexivity].
  - apply (post_unauthenticated_401 jwt_verify castObjectId fresh_id given_id
          castString_other castNumber_other
             post_expired seed); [reflexivity | vm_compute; reflexivity].
Defined.

(** C8 at a POST by arto that gives neither author nor likes. *)
Lemma post_defaults_witness :
  status_of (run post_by_arto_no_author seed) = Some 201 /\
  exists u o b,
    requester jwt_verify castObjectId post_by_arto_no_author seed = Some u /\
    document_id castObjectId fresh_id given_id (b_others (body post_by_arto_no_author))
    = Some o /\
    payload_of (run post_by_arto_no_author seed) = Some (BlogJson (mkDoc o b)) /\
    blogColl (db (run post_by_arto_no_author seed)) !! o = Some b /\
    (b_author (body post_by_arto_no_author) = None ->
     Blog.author b = Some (match User.name (paths u) with
                           | Some n => n
                           | None => "unknown"
                           end)) /\
    (b_likes (body post_by_arto_no_author) = None -> Blog.likes b = Some 0%Z).
Proof.
  assert (status_of (run post_by_arto_no_author seed) = Some 201) as H
    by (vm_compute; reflexivity).
  split; [exact H|].
  apply (post_defaults jwt_verify castObjectId fresh_id given_id
      castString_other castNumber_other post_by_arto_no_author seed);
    [reflexivity | exact H].
Defined.

(** C9 at the POST of matti, whose body gives an author. *)
Lemma post_author_overridden_witness :
  b_author (body post_by_matti) = Some (JString "Robert C. Martin") /\
  status_of (run post_by_matti seed) = Some 201 /\
  (exists u o b,
     requester jwt_verify castObjectId post_by_matti seed = Some u /\
     document_id castObjectId fresh_id given_id (b_others (body post_by_matti)) = Some o /\
     payload_of (run post_by_matti seed) = Some (BlogJson (mkDoc o b)) /\
     blogColl (db (run post_by_matti seed)) !! o = Some b /\
     Blog.author b = Some (match User.name (paths u) with
                           | Some n => n
                           | None => "unknown"
                           end)) /\
  (forall a,
     run (with_body (with_body_author a (body post_by_matti)) post_by_matti) seed
     = run post_by_matti seed).
Proof.
  assert (status_of (run post_by_matti seed) = Some 201) as H
    by (vm_compute; reflexivity).
  split; [reflexivity|]. split; [exact H|].
  apply (post_author_overridden jwt_verify castObjectId fresh_id given_id
      castString_other castNumber_other post_by_matti seed);
    [reflexivity | exact H].
Defined.

(** C10 at a POST whose token was signed without an id: the POST handler
    runs with a null user, after the 401. *)
Lemma userExtractor_without_id_witness :
  let w' := mkWorld seed (mkResponse 401 (Some (401, ErrorJson "JWT invalid")))
                    (Some "token.without.id") None in
  call (userExtractor jwt_verify castObjectId post_without_id)
       (arrived post_without_id seed) = (Next, w') /\
  run_stack [userExtractor jwt_verify castObjectId;
             blogs_post castObjectId fresh_id given_id
                     castString_other castNumber_other]
            post_without_id (arrived post_without_id seed)
  = call (blogs_post castObjectId fresh_id given_id
          castString_other castNumber_other
                     post_without_id) w'.
Proof.
  apply (userExtractor_without_id jwt_verify castObjectId post_without_id
           (arrived post_without_id seed) "token.without.id"
           (mkPayload None (Some "arto"))
           (blogs_post castObjectId fresh_id given_id
                   castString_other castNumber_other));
    reflexivity.
Defined.

End Runs.

(* ===================================================================== *)
(** ** The rest of the routes, and requests in sequence *)
(* ===================================================================== *)

Lemma prefix_split (p a : string) :
  String.prefix p a = true ->
  a = p ++ String.substring (String.length p) (String.length a - String.length p) a.
Proof.
  revert a. induction p as [|c p IH]; intros a H.
  - simpl. change ("" +:+ ?x) with x. now rewrite Nat.sub_0_r, substring_all.
  - destruct a as [|c' a]; simpl in H; [discriminate|].
    destruct (Ascii.ascii_dec c c') as [->|]; [|discriminate].
    simpl. change (String c' p +:+ ?x) with (String c' (p +:+ x)).
    f_equal. now apply IH.
Qed.

(* --------------------------------------------------------------------- *)
(** *** GET /api/blogs *)


Lemma listing_In (d : Db) (e : PopulatedBlog) :
  In e (Blog_find_populate d) <->
  blogColl d !! _id (p_blog e) = Some (paths (p_blog e)) /\
  p_user e = populate_user d (Blog.user (paths (p_blog e))).
Proof.
  unfold Blog_find_populate. rewrite in_map_iff. split.
  - intros ([o b] & <- & Hin). simpl.
    apply list_elem_of_In, elem_of_map_to_list in Hin. auto.
  - intros [Hb Hu]. exists (_id (p_blog e), paths (p_blog e)). split.
    + destruct e as [[o b] s]. simpl in *. now rewrite Hu.
    + now apply list_elem_of_In, elem_of_map_to_list.
Qed.


(** X16. When every blog is listed by its owner, no entry of the GET
    listing has a null user: each carries the username, name and id of
    the stored user that the blog refers to. *)
Theorem get_shows_owner (d : Db) (e : PopulatedBlog) :
  owner_lists_blog d ->
  In e (snd (blogs_get d)) ->
  exists uid u,
    Blog.user (paths (p_blog e)) = Some uid /\
    userColl d !! uid = Some u /\
    In (_id (p_blog e)) (User.blogs u) /\
    p_user e = Some (mkOwner (User.username u) (User.name u) uid).
Proof.
  intros Inv Hin. apply listing_In in Hin as [Hb Hu].
  destruct (Inv _ _ Hb) as (uid & u & Hr & Hs & Hl).
  exists uid, u. rewrite Hu, Hr. simpl. rewrite Hs. auto.
Qed.

Section Coverage.
Variable jwt_verify : string -> JwtOutcome.
Variable castObjectId : string -> option ObjectId.
Variable newObjectId : ObjectId.
Variable given_id : list (string * string) -> option string.
Variable castString_other : Json -> Cast string.
Variable castNumber_other : Json -> Cast Z.

Local Abbreviation app :=
  (app jwt_verify castObjectId newObjectId given_id
          castString_other castNumber_other).
Local Abbreviation requester := (requester jwt_verify castObjectId).
Local Abbreviation unauthenticated := (unauthenticated jwt_verify).
Local Abbreviation userExtractor := (userExtractor jwt_verify castObjectId).
Local Abbreviation blogs_post :=
  (blogs_post castObjectId newObjectId given_id
          castString_other castNumber_other).
Local Abbreviation blogs_delete := (blogs_delete castObjectId).
Local Abbreviation blogs_put :=
  (blogs_put castObjectId castString_other castNumber_other).
Local Abbreviation castString := (castString castString_other).
Local Abbreviation castNumber := (castNumber castNumber_other).
Local Abbreviation castUpdate := (castUpdate castString_other castNumber_other).
Local Abbreviation document_id :=
  (document_id castObjectId newObjectId given_id).
Local Abbreviation put_outcome :=
  (put_outcome jwt_verify castObjectId newObjectId given_id castString_other
               castNumber_other).
Local Abbreviation post_created :=
  (post_created jwt_verify castObjectId newObjectId given_id castString_other
                castNumber_other).

(** X1. [tokenExtractor] leaves the token [t] in [request.token] exactly
    when the Authorization header is ["Bearer "] followed by [t]; for every
    other header, and without one, the token is null. *)
Theorem presented_token_iff (request : Request) (t : string) :
  presented_token request = Some t <->
  authorization request = Some ("Bearer " ++ t).
Proof.
  split; [|apply presented_token_bearer].
  unfold presented_token, tokenExtractor, call, try_catch.
  destruct (authorization request) as [a|]; simpl; [|discriminate].
  destruct (negb (a =? "")); simpl; [|discriminate].
  destruct (String.prefix "Bearer " a) eqn:E; simpl; [|discriminate].
  intros [= <-]. f_equal. apply (prefix_split _ _ E).
Qed.

Ltac run_as Hm Hu :=
  rewrite app_after_token; unfold route; rewrite Hm;
  rewrite (stack_authenticated _ _ _ _ _ _ Hu);
  unfold arrived, set_req_user; simpl;
  unfold_handlers; unfold_monad; simpl.

(* --------------------------------------------------------------------- *)
(** *** Requests without a valid token *)

(** X2. A DELETE whose token is missing, invalid or expired is answered
    401 and changes nothing in the database. *)
Theorem delete_unauthenticated_401 (request : Request) (d : Db) :
  method request = DELETE ->
  unauthenticated request = true ->
  status_of (app request d) = Some 401 /\ db (app request d) = d.
Proof.
  intros Hm Hbad. rewrite app_after_token. unfold route. rewrite Hm.
  destruct (userExtractor_unauthenticated _ castObjectId _ d Hbad) as (e & E & He).
  rewrite (stack_error _ _ _ _ _ _ _ E).
  unfold_handlers. unfold_monad. unfold arrived, status_of.
  destruct He as [-> | ->]; simpl; auto.
Qed.

(** X3. POST and DELETE never succeed without a valid token: when the
    token does not resolve to a stored user the answer is 400, 401 or
    500. *)
Theorem guarded_routes_need_token (request : Request) (d : Db) :
  method request <> PUT ->
  requester request d = None ->
  In (status_of (app request d)) [Some 400; Some 401; Some 500].
Proof.
  intros Hm Hr. rewrite app_after_token. unfold route.
  destruct (method request); [| |congruence].
  - apply unresolved_status; auto using keeps_blogs_post, blogs_post_null_user.
  - apply unresolved_status; auto using keeps_blogs_delete, blogs_delete_null_user.
Qed.

(** X4. A POST or DELETE whose token verifies and carries the id of a
    user that is not stored: [request.user] is null, the handler throws on
    reading it, and the answer is 500 with the database unchanged. *)
Theorem unknown_user_500 (request : Request) (d : Db) (t i : string)
  (p : JwtPayload) (o : ObjectId) :
  method request <> PUT ->
  presented_token request = Some t ->
  jwt_verify t = Decoded p ->
  tok_id p = Some i -> i <> "" ->
  castObjectId i = Some o ->
  userColl d !! o = None ->
  status_of (app request d) = Some 500 /\ db (app request d) = d.
Proof.
  intros Hm Ht Hv Hi Hne Ho Hu.
  assert (call (userExtractor request) (arrived request d)
          = (Next, arrived request d)) as E.
  { unfold arrived. unfold_handlers. unfold_monad. simpl.
    rewrite Ht, Hv. simpl. rewrite Hi. simpl.
    apply String.eqb_neq in Hne. rewrite Hne. simpl.
    rewrite Ho. simpl. now rewrite Hu. }
  rewrite app_after_token. unfold route.
  destruct (method request); [| |congruence];
    rewrite (stack_next _ _ _ _ _ _ E);
    unfold arrived; unfold_handlers; unfold_monad; simpl; auto.
Qed.

(* --------------------------------------------------------------------- *)
(** *** DELETE by the owner *)

Lemma requester_users (request : Request) (d d' : Db) :
  userColl d' = userColl d -> requester request d' = requester request d.
Proof. intros H. unfold requester. now rewrite H. Qed.

(** X5. A DELETE by a requester whose [blogs] list the id, which casts
    to an ObjectId: 204, the blog of that id is gone, every other blog and
    every user is as before. *)
Theorem delete_by_owner (request : Request) (d : Db) (u : Document User.t)
  (o : ObjectId) :
  method request = DELETE ->
  requester request d = Some u ->
  In (params_id request) (User.blogs (paths u)) ->
  castObjectId (params_id request) = Some o ->
  status_of (app request d) = Some 204 /\
  blogColl (db (app request d)) !! o = None /\
  (forall o', o' <> o ->
     blogColl (db (app request d)) !! o' = blogColl d !! o') /\
  userColl (db (app request d)) = userColl d.
Proof.
  intros Hm Hu Hown Ho.
  pose proof (delete_authenticated _ _ newObjectId given_id
      castString_other castNumber_other _ _ _ Hm Hu) as H.
  simpl in H. rewrite Ho in H.
  apply includes_In in Hown. rewrite Hown in H. destruct H as [Hs ->].
  simpl. split; [exact Hs|]. split; [apply lookup_delete_eq|].
  split; [|reflexivity]. intros o' Hne. now apply lookup_delete_ne.
Qed.

(** X6. Repeating a successful DELETE: the id is still in the [blogs] of
    the requester, so the same request is answered 204 again, and it
    changes nothing. *)
Theorem delete_twice (request : Request) (d : Db) :
  method request = DELETE ->
  status_of (app request d) = Some 204 ->
  status_of (app request (db (app request d))) = Some 204 /\
  db (app request (db (app request d))) = db (app request d).
Proof.
  intros Hm H204.
  destruct (delete_done_requester _ _ newObjectId given_id
      castString_other castNumber_other _ _ Hm H204) as [u Hu].
  pose proof (delete_users_unchanged jwt_verify castObjectId newObjectId given_id
                castString_other castNumber_other request d Hm) as Hus.
  pose proof (delete_authenticated _ _ newObjectId given_id
      castString_other castNumber_other _ _ _ Hm Hu) as H1.
  simpl in H1.
  destruct (castObjectId (params_id request)) as [o|] eqn:Ho;
    destruct H1 as [Hs1 Hd1]; rewrite Hs1 in H204;
    destruct (includes _ _) eqn:Hown; try discriminate.
  assert (requester request (db (app request d)) = Some u) as Hu'
    by now rewrite (requester_users _ _ _ Hus).
  pose proof (delete_authenticated _ _ newObjectId given_id
      castString_other castNumber_other _ _ _ Hm Hu') as H2.
  simpl in H2. rewrite Ho, Hown in H2. destruct H2 as [Hs2 Hd2].
  split; [exact Hs2|]. rewrite Hd2, Hd1. simpl.
  now rewrite delete_delete_eq.
Qed.

(* --------------------------------------------------------------------- *)
(** *** PUT *)

(** X7. A PUT on an id that does not cast to an ObjectId is answered 400
    "malformatted id" and changes nothing. *)
Theorem put_malformed_id_400 (request : Request) (d : Db) :
  method request = PUT ->
  castObjectId (params_id request) = None ->
  status_of (app request d) = Some 400 /\
  payload_of (app request d) = Some (ErrorJson "malformatted id") /\
  db (app request d) = d.
Proof.
  intros Hm Ho. pose proof (put_outcome request d Hm) as H.
  rewrite Ho in H. destruct H as [Hs Hd]. unfold status_of, payload_of.
  now rewrite Hs.
Qed.

(** X8. A PUT that gives an empty title or an empty url is answered 400
    and changes nothing, whether or not a blog has the id. *)
Theorem put_empty_title_or_url_400 (request : Request) (d : Db) (o : ObjectId) :
  method request = PUT ->
  castObjectId (params_id request) = Some o ->
  b_title (body request) = Some (JString "") \/
  b_url (body request) = Some (JString "") ->
  status_of (app request d) = Some 400 /\ db (app request d) = d.
Proof.
  intros Hm Ho Hbad. pose proof (put_outcome request d Hm) as H.
  rewrite Ho in H. unfold status_of.
  destruct (castUpdate (update_of (body request))) as [upd|v] eqn:Hc;
    [|destruct H as [-> ->]; auto].
  apply castUpdate_inl in Hc as (Ht & _ & _ & Hl). simpl in Ht, Hl.
  assert (negb (update_is_empty upd)
          && negb (Nat.eqb (List.length (validate_update upd)) 0) = true) as E.
  { unfold update_is_empty, validate_update, failing_required, set_path.
    destruct Hbad as [Hb | Hb]; rewrite Hb in *; simpl in *.
    - injection Ht as <-. reflexivity.
    - injection Hl as <-.
      destruct (c_title upd) as [[t|]|], (c_author upd), (c_likes upd); simpl;
        try destruct (t =? ""); reflexivity. }
  rewrite E in H. destruct H as [-> ->]. auto.
Qed.

(** X27. A PUT that gives null for title or url, or a value that is not
    cast to the type of its path, is answered 400 and changes nothing,
    whether or not a blog has the id. *)
Theorem put_null_or_uncastable_400 (request : Request) (d : Db) (o : ObjectId) :
  method request = PUT ->
  castObjectId (params_id request) = Some o ->
  b_title (body request) = Some JNull \/
  b_url (body request) = Some JNull \/
  (exists v, castUpdate (update_of (body request)) = inr v) ->
  status_of (app request d) = Some 400 /\ db (app request d) = d.
Proof.
  intros Hm Ho Hbad. pose proof (put_outcome request d Hm) as H.
  rewrite Ho in H. unfold status_of.
  destruct (castUpdate (update_of (body request))) as [upd|v] eqn:Hc;
    [|destruct H as [-> ->]; auto].
  apply castUpdate_inl in Hc as (Ht & _ & _ & Hl). simpl in Ht, Hl.
  assert (negb (update_is_empty upd)
          && negb (Nat.eqb (List.length (validate_update upd)) 0) = true) as E.
  { unfold update_is_empty, validate_update, failing_required, set_path.
    destruct Hbad as [Hb | [Hb | [v Hb]]]; [| |discriminate];
      rewrite Hb in *; simpl in *.
    - injection Ht as <-. reflexivity.
    - injection Hl as <-.
      destruct (c_title upd) as [[t|]|], (c_author upd), (c_likes upd); simpl;
        try destruct (t =? ""); reflexivity. }
  rewrite E in H. destruct H as [-> ->]. auto.
Qed.

(** X9. PUT is idempotent: sending the same update again gives the same
    response and leaves the database as the first one left it. *)
Theorem put_idempotent (request : Request) (d : Db) :
  method request = PUT ->
  sent (response (app request (db (app request d))))
  = sent (response (app request d)) /\
  db (app request (db (app request d))) = db (app request d).
Proof.
  intros Hm.
  pose proof (put_outcome request d Hm) as H1.
  pose proof (put_outcome request (db (app request d)) Hm) as H2.
  destruct (castObjectId (params_id request)) as [o|];
    [|destruct H1 as [S1 D1]; rewrite D1; split; [reflexivity | exact D1]].
  destruct (castUpdate (update_of (body request))) as [upd|v];
    [|destruct H1 as [S1 D1]; rewrite D1; split; [reflexivity | exact D1]].
  destruct (negb _ && negb _).
  - destruct H1 as [S1 D1]. rewrite D1. split; [reflexivity | exact D1].
  - destruct (blogColl d !! o) as [b|] eqn:Hb.
    + destruct H1 as [S1 D1]. rewrite D1 in H2 |- *. simpl in H2.
      rewrite lookup_insert_eq in H2. destruct H2 as [S2 D2].
      assert (apply_update upd (apply_update upd b) = apply_update upd b)
        as Hidem.
      { unfold apply_update. simpl.
        destruct (c_title upd) as [[?|]|], (c_author upd), (c_likes upd),
          (c_url upd) as [[?|]|]; reflexivity. }
      rewrite Hidem in S2, D2. rewrite S2, S1, D2.
      split; [reflexivity|]. now rewrite insert_insert_eq.
    + destruct H1 as [S1 D1]. rewrite D1. split; [reflexivity | exact D1].
Qed.

(** X10. PUT does not authenticate: the response and the database after
    it are the same for every Authorization header, and without one. *)
Theorem put_needs_no_token (request : Request) (d : Db) (a : option string) :
  method request = PUT ->
  sent (response (app (with_authorization a request) d))
  = sent (response (app request d)) /\
  db (app (with_authorization a request) d) = db (app request d).
Proof.
  intros Hm.
  pose proof (put_outcome request d Hm) as H1.
  pose proof (put_outcome (with_authorization a request) d Hm) as H2.
  simpl in *.
  destruct (castObjectId (params_id request)) as [o|];
    [destruct (castUpdate _);
     [destruct (negb _ && negb _); [|destruct (blogColl d !! o)]|]|];
    destruct H1 as [-> ->], H2 as [-> ->]; split; reflexivity.
Qed.

(* --------------------------------------------------------------------- *)
(** *** POST *)

(** X11. An authenticated POST whose title or url is missing, null or
    empty is answered 400 and changes nothing. *)
Theorem post_missing_title_or_url_400 (request : Request) (d : Db)
  (u : Document User.t) :
  method request = POST ->
  requester request d = Some u ->
  In (b_title (body request)) [None; Some JNull; Some (JString "")] \/
  In (b_url (body request)) [None; Some JNull; Some (JString "")] ->
  status_of (app request d) = Some 400 /\ db (app request d) = d.
Proof.
  intros Hm Hu Hbad.
  pose proof (post_authenticated jwt_verify castObjectId newObjectId given_id
                castString_other castNumber_other _ _ _ Hm Hu) as H.
  destruct (validate_new _) as [doc|errors] eqn:V; [|exact H].
  apply validate_new_inl in V
    as (o & t & a & l & n & _ & Ht & _ & Hl & _ & Hte & Hle & _).
  simpl in Ht, Hl. exfalso.
  destruct Hbad as [Hb | Hb]; simpl in Hb;
    destruct Hb as [Hb | [Hb | [Hb | []]]]; rewrite <- Hb in *;
    simpl in *; congruence.
Qed.

(** X12. POST ignores the [user] of the body: a client cannot create a
    blog in the name of another user. *)
Theorem post_ignores_user (request : Request) (d : Db) (user' : option string) :
  method request = POST ->
  app (with_body (mkBody (b_title (body request)) (b_author (body request))
                         (b_url (body request)) (b_likes (body request))
                         user' (b_others (body request))) request) d
  = app request d.
Proof.
  intros Hm. unfold app, route, with_body. simpl. rewrite Hm. reflexivity.
Qed.

(** X13. A successful POST writes one blog and one user only: the id of
    the new blog was free, every other blog and every other user is as
    before, and the requester keeps its username, name and password
    hash. *)
Theorem post_frame (request : Request) (d : Db) :
  method request = POST ->
  status_of (app request d) = Some 201 ->
  exists u o,
    requester request d = Some u /\
    document_id (b_others (body request)) = Some o /\
    blogColl d !! o = None /\
    (forall o', o' <> o ->
       blogColl (db (app request d)) !! o' = blogColl d !! o') /\
    (forall uid, uid <> _id u ->
       userColl (db (app request d)) !! uid = userColl d !! uid) /\
    (exists u', userColl (db (app request d)) !! _id u = Some u' /\
                User.username u' = User.username (paths u) /\
                User.name u' = User.name (paths u) /\
                User.passwordHash u' = User.passwordHash (paths u)).
Proof.
  intros Hm H201.
  destruct (post_created _ _ Hm H201)
    as (u & o & b & Hu & Ho & Hnew & _ & Hd & _).
  exists u, o. rewrite Hd. simpl.
  split; [exact Hu|]. split; [exact Ho|]. split; [exact Hnew|].
  split; [intros o' Hne; now rewrite lookup_insert_ne|].
  split; [intros uid Hne; now rewrite lookup_insert_ne|].
  eexists. rewrite lookup_insert_eq. split; [reflexivity|]. simpl. auto.
Qed.

(** X26. The client can choose the id of the new blog.  An authenticated
    POST whose body gives an [_id]: 400 when it does not cast to an
    ObjectId, 400 or 500 when a blog has that id already, nothing being
    changed in both cases; and when the answer is 201 the new blog is
    stored under that id, which no blog had. *)
Theorem post_with_given_id (request : Request) (d : Db) (u : Document User.t)
  (s : string) :
  method request = POST ->
  requester request d = Some u ->
  given_id (b_others (body request)) = Some s ->
  (castObjectId s = None ->
   status_of (app request d) = Some 400 /\ db (app request d) = d) /\
  (forall o, castObjectId s = Some o -> is_Some (blogColl d !! o) ->
   In (status_of (app request d)) [Some 400; Some 500] /\ db (app request d) = d) /\
  (status_of (app request d) = Some 201 ->
   exists o b, castObjectId s = Some o /\ blogColl d !! o = None /\
               blogColl (db (app request d)) !! o = Some b).
Proof.
  intros Hm Hu Hid.
  pose proof (post_authenticated jwt_verify castObjectId newObjectId given_id
                castString_other castNumber_other _ _ _ Hm Hu) as H.
  assert (document_id (b_others (body request)) = castObjectId s) as Hdoc
    by (unfold document_id; now rewrite Hid).
  split; [|split].
  - intros Hcast.
    destruct (validate_new _) as [doc|errors] eqn:V; [|exact H].
    apply validate_new_inl in V as (o & ? & ? & ? & ? & Ho & _).
    simpl in Ho. congruence.
  - intros o Hcast [b Hb].
    destruct (validate_new _) as [doc|errors] eqn:V;
      [|destruct H as [-> ->]; simpl; auto].
    apply validate_new_inl in V as (o' & ? & ? & ? & ? & Ho & _ & _ & _ & _ & _ & _ & ->).
    simpl in Ho, H. assert (o' = o) as -> by congruence.
    rewrite Hb in H. destruct H as [-> ->]. simpl. auto.
  - intros H201.
    destruct (post_created _ _ Hm H201)
      as (u' & o & b & _ & Ho & Hnew & _ & Hd & _).
    exists o, b. rewrite Hd. simpl. rewrite lookup_insert_eq.
    split; [congruence | auto].
Qed.

(* --------------------------------------------------------------------- *)
(** *** What the handlers write *)

Lemma userExtractor_loaded (request : Request) (d : Db) :
  db (snd (call (userExtractor request) (arrived request d))) = d /\
  forall u, req_user (snd (call (userExtractor request) (arrived request d))) = Some u ->
            userColl d !! _id u = Some (paths u).
Proof.
  unfold arrived. unfold_handlers. unfold_monad. simpl.
  destruct (presented_token request) as [t|]; simpl; [|split; [done|discriminate]].
  destruct (jwt_verify t) as [p| | |]; simpl; try (split; [done|discriminate]).
  destruct (tok_id p) as [i|]; simpl; [|split; [done|discriminate]].
  destruct (i =? ""); simpl;
    (destruct (castObjectId i) as [o|]; simpl; [|split; [done|discriminate]]);
    (split; [done|]); intros u Hu;
    destruct (userColl d !! o) eqn:E; simpl in Hu; simplify_eq; exact E.
Qed.

Lemma blogs_delete_db (request : Request) (w : World) :
  db (snd (call (blogs_delete request) w)) = db w \/
  exists o, db (snd (call (blogs_delete request) w))
            = mkDb (delete o (blogColl (db w))) (userColl (db w)).
Proof.
  unfold_handlers. unfold_monad.
  destruct w as [dw [sc [x|]] tw [u|]]; simpl; try (now left);
    destruct (negb _); simpl;
    destruct (castObjectId (params_id request)) as [o|]; simpl;
    first [left; reflexivity | right; eexists; reflexivity].
Qed.

(** The database after a request to a route that [userExtractor] guards is
    the one the handler leaves, run on the database as it was. *)
Lemma guarded_db (h : Request -> M Flow) (request : Request) (d : Db) :
  db (after_router request (run_stack [userExtractor; h] request (arrived request d)))
  = d \/
  exists w, db w = d /\
            (forall u, req_user w = Some u -> userColl d !! _id u = Some (paths u)) /\
            db (after_router request
                  (run_stack [userExtractor; h] request (arrived request d)))
            = db (snd (call (h request) w)).
Proof.
  destruct (userExtractor_loaded request d) as [Hd Hu].
  rewrite after_router_db.
  destruct (call (userExtractor request) (arrived request d)) as [f w1] eqn:E.
  simpl in Hd, Hu. destruct f.
  - right. exists w1. rewrite (stack_next _ _ _ _ _ _ E). auto.
  - left. now rewrite (stack_error _ _ _ _ _ _ _ E).
  - left.
    change (run_stack _ request ?w)
      with (match call (userExtractor request) w with
            | (Next, w1) => run_stack [h] request w1
            | stop => stop
            end).
    now rewrite E.
Qed.

(* --------------------------------------------------------------------- *)
(** *** Every stored blog is listed by its owner *)

(** X14. Completed requests keep the link from a blog to its owner: when
    every stored blog refers to a stored user whose [blogs] list it, the
    same holds after any DELETE or PUT, whatever its answer, and after
    any POST that is answered 201. *)
Theorem owner_lists_blog_preserved (request : Request) (d : Db) :
  owner_lists_blog d ->
  method request <> POST \/ status_of (app request d) = Some 201 ->
  owner_lists_blog (db (app request d)).
Proof.
  intros Inv Hdone. destruct (method request) eqn:Hm.
  - (* POST *)
    destruct Hdone as [? | H201]; [congruence|].
    destruct (post_created _ _ Hm H201)
      as (u & o & b & Hu & _ & Hnew & _ & -> & _ & _ & _ & _ & _ & _ & Hb).
    pose proof (requester_stored _ _ _ _ _ Hu) as Hs.
    intros o' b'. simpl. rewrite lookup_insert. case_decide as Ho.
    + intros [= <-]. subst o'. exists (_id u). eexists.
      split; [exact Hb|]. rewrite lookup_insert_eq.
      split; [reflexivity|]. simpl. apply in_or_app. right. now left.
    + intros Hob. destruct (Inv o' b' Hob) as (uid & u0 & Hb' & Hu0 & Hin).
      exists uid. rewrite lookup_insert. case_decide as Huid.
      * subst uid. eexists. split; [exact Hb'|].
        split; [reflexivity|]. simpl. apply in_or_app. left.
        rewrite Hs in Hu0. now injection Hu0 as <-.
      * exists u0. auto.
  - (* DELETE *)
    rewrite app_after_token. unfold route. rewrite Hm.
    destruct (guarded_db blogs_delete request d) as [-> | (w & Hd & _ & ->)];
      [exact Inv|].
    destruct (blogs_delete_db request w) as [-> | (o & ->)];
      rewrite Hd in *; [exact Inv|].
    intros o' b. simpl. rewrite lookup_delete. case_decide; [discriminate|].
    apply Inv.
  - (* PUT *)
    destruct (put_frame jwt_verify castObjectId newObjectId given_id
        castString_other castNumber_other request d Hm) as [Hu H].
    intros o' b'. rewrite Hu.
    destruct (castObjectId (params_id request)) as [o|];
      [destruct H as [-> | (upd & b & _ & Hb & ->)] | rewrite H]; try apply Inv.
    rewrite lookup_insert. case_decide as Ho; [|apply Inv].
    intros [= <-]. subst o'. simpl. exact (Inv o b Hb).
Qed.

(* --------------------------------------------------------------------- *)
(** *** Requests in sequence *)

Lemma requester_as (request request' : Request) (d d' : Db) (u : Document User.t) :
  requester request d = Some u ->
  authorization request' = authorization request ->
  requester request' d' = mkDoc (_id u) <$> userColl d' !! _id u.
Proof.
  intros Hu Ha.
  assert (presented_token request' = presented_token request) as E.
  { unfold presented_token, tokenExtractor. now rewrite Ha. }
  unfold requester in *. rewrite E.
  destruct (presented_token request) as [t|]; [|discriminate].
  destruct (jwt_verify t) as [p| | |]; try discriminate.
  destruct (falsy (tok_id p)); [discriminate|].
  destruct (tok_id p) as [i|]; [|discriminate].
  destruct (castObjectId i) as [o|]; [|discriminate].
  destruct (userColl d !! o); simpl in Hu; [|discriminate].
  now injection Hu as <-.
Qed.

(** X17. After a successful POST, GET lists the new blog, which is the
    blog that was returned, with the username, name and id of the
    requester as its user. *)
Theorem post_then_get (request : Request) (d : Db) :
  method request = POST ->
  status_of (app request d) = Some 201 ->
  exists u o b,
    requester request d = Some u /\
    document_id (b_others (body request)) = Some o /\
    payload_of (app request d) = Some (BlogJson (mkDoc o b)) /\
    In (mkPopulated (mkDoc o b)
          (Some (mkOwner (User.username (paths u)) (User.name (paths u)) (_id u))))
       (snd (blogs_get (db (app request d)))).
Proof.
  intros Hm H201.
  destruct (post_created _ _ Hm H201)
    as (u & o & b & Hu & Ho & _ & Hp & Hd & _ & _ & _ & _ & _ & _ & Hb).
  exists u, o, b. split; [exact Hu|]. split; [exact Ho|]. split; [exact Hp|].
  apply listing_In. simpl. rewrite Hd. simpl.
  split; [apply lookup_insert_eq|].
  unfold populate_user. rewrite Hb. simpl. now rewrite lookup_insert_eq.
Qed.

(** X18. A successful POST followed by the DELETE of the id of the new
    blog with the same credentials: 204, the blogs are again what they
    were before the POST, and the [blogs] of the requester still list the
    deleted id. *)
Theorem post_then_delete (request : Request) (d : Db) (o : ObjectId) :
  method request = POST ->
  status_of (app request d) = Some 201 ->
  document_id (b_others (body request)) = Some o ->
  castObjectId o = Some o ->
  let d1 := db (app request d) in
  let d2 := db (app (delete_of o request) d1) in
  status_of (app (delete_of o request) d1) = Some 204 /\
  blogColl d2 = blogColl d /\
  userColl d2 = userColl d1 /\
  exists u u', requester request d = Some u /\
               userColl d2 !! _id u = Some u' /\
               In o (User.blogs u').
Proof.
  intros Hm H201 Hid Hcast d1 d2.
  destruct (post_created _ _ Hm H201)
    as (u & o' & b & Hu & Ho & Hnew & _ & Hd & _).
  assert (o' = o) as -> by congruence.
  assert (requester (delete_of o request) d1
          = Some (mkDoc (_id u)
                    (User.with_blogs (paths u)
                       (User.blogs (paths u) ++ [o])))) as Hu1.
  { rewrite (requester_as request (delete_of o request) d d1 u
               Hu eq_refl). subst d1.
    rewrite Hd. simpl. now rewrite lookup_insert_eq. }
  pose proof (delete_authenticated _ _ newObjectId given_id
          castString_other castNumber_other
                (delete_of o request) d1 _ eq_refl Hu1) as H.
  simpl in H. rewrite Hcast in H.
  assert (includes (User.blogs (paths u) ++ [o]) o = true)
    as Hown by (apply includes_In, in_or_app; right; now left).
  rewrite Hown in H. destruct H as [Hs Hd2]. fold d2 in Hd2.
  split; [exact Hs|]. rewrite Hd2. simpl. subst d1. rewrite Hd. simpl.
  split; [now apply delete_insert_id|]. split; [reflexivity|].
  exists u. eexists. split; [exact Hu|]. rewrite lookup_insert_eq.
  split; [reflexivity|]. simpl. apply in_or_app. right. now left.
Qed.

(* --------------------------------------------------------------------- *)
(** *** Errors *)

Lemma keeps_blogs_put (request : Request) : keeps_answer (blogs_put request).
Proof.
  unfold_calls. cbv zeta.
  repeat first
    [ progress intros
    | progress cbv beta
    | apply keeps_ret | apply keeps_throw | apply keeps_get_world
    | apply keeps_status | apply keeps_json | apply keeps_end
    | solve [apply keeps_modify; reflexivity]
    | apply keeps_bind
    | apply keeps_try
    | case_match ].
Qed.

(** X20. The first response is the response: when one was written
    before a route handler runs, it is still what the client gets after
    the handler and the error handlers. *)
Theorem answer_is_final (request : Request) (w : World) (x : nat * Payload) :
  sent (response w) = Some x ->
  sent (response (after_router request (call (blogs_post request) w))) = Some x /\
  sent (response (after_router request (call (blogs_delete request) w))) = Some x /\
  sent (response (after_router request (call (blogs_put request) w))) = Some x.
Proof.
  intros H.
  assert (forall h : Request -> M Flow, keeps_answer (h request) ->
            sent (response (after_router request (call (h request) w))) = Some x)
    as Hh.
  { intros h Hk. pose proof (call_keeps _ _ _ Hk H) as Hc. revert Hc.
    destruct (call (h request) w) as [f w']. intros Hc. simpl in Hc.
    now apply after_router_keeps. }
  auto using keeps_blogs_post, keeps_blogs_delete, keeps_blogs_put.
Qed.

End Coverage.

(** X19. Every error that reaches the error handlers before a response
    was written gets one, and the database is not touched: 400 for a
    CastError or ValidationError, 401 for a JsonWebTokenError or
    TokenExpiredError, 500 for every other error. *)
Theorem errors_are_answered (outcome_error : Error) (w : World) :
  sent (response w) = None ->
  let w' := handle_errors (NextError outcome_error, w) in
  db w' = db w /\
  (In (error_name outcome_error) ["CastError"; "ValidationError"] ->
   status_of w' = Some 400) /\
  (In (error_name outcome_error) ["JsonWebTokenError"; "TokenExpiredError"] ->
   status_of w' = Some 401) /\
  (~ In (error_name outcome_error)
        ["CastError"; "ValidationError"; "JsonWebTokenError"; "TokenExpiredError"] ->
   status_of w' = Some 500).
Proof.
  intros Hs w'. subst w'. split; [apply handle_errors_db|].
  unfold_handlers. unfold_monad. unfold status_of.
  destruct outcome_error; simpl; rewrite Hs; simpl;
    repeat split; intros H; try reflexivity; simpl in H;
    try (exfalso; intuition discriminate); exfalso; apply H; auto 6.
Qed.


(* ===================================================================== *)
(** ** The anecdote slice *)
(* ===================================================================== *)

Module AnecdoteFacts.
Import Anecdotes.



(** X22. A vote for an id that no anecdote has leaves the state as it
    is; in particular the empty state. *)
Theorem vote_for_absent_id (state : list Item) (id : string) :
  (forall a, In (Object a) state -> Anecdote.id a <> id) ->
  reducer state (increaseVoteCount id) = state.
Proof.
  intros H. simpl. rewrite <- (map_id state) at 2.
  apply map_ext_in. intros [a|s] Hin; simpl; [|reflexivity].
  destruct (Anecdote.id a =? id) eqn:E; [|reflexivity].
  apply String.eqb_eq in E. now destruct (H a Hin).
Qed.

(** Up to 2^53 the integers are numbers. *)
Lemma nearest_number_safe (z : Z) :
  (Z.abs z <= 2 ^ 53)%Z -> nearest_number z = z.
Proof.
  intros H. destruct (Z.eq_dec (Z.abs z) (2 ^ 53)%Z) as [E | E].
  - assert (z = 2 ^ 53 \/ z = - 2 ^ 53)%Z as [-> | ->] by lia;
      vm_compute; reflexivity.
  - unfold nearest_number.
    assert (Z.log2 (Z.abs z) - 52 <= 0)%Z as He.
    { destruct (Z.eq_dec (Z.abs z) 0%Z) as [Hz | Hz].
      - rewrite Hz. vm_compute. discriminate.
      - assert (Z.log2 (Z.abs z) < 53)%Z by (apply Z.log2_lt_pow2; lia). lia. }
    apply Z.leb_le in He. now rewrite He.
Qed.

(** Beyond 2^53 a vote can be lost, or count twice. *)
Remark nearest_number_beyond :
  nearest_number (2 ^ 53 + 1) = (2 ^ 53)%Z /\
  nearest_number (2 ^ 53 + 3) = (2 ^ 53 + 4)%Z.
Proof. split; vm_compute; reflexivity. Qed.

(** X23. When the votes of every anecdote are below 2^53 in absolute
    value, where adding 1 is exact, a vote raises the total of the votes
    by the number of anecdotes that have the id. *)
Theorem vote_total (state : list Item) (id : string) :
  (forall a, In (Object a) state -> (Z.abs (Anecdote.votes a) < 2 ^ 53)%Z) ->
  total_votes (reducer state (increaseVoteCount id))
  = (total_votes state + Z.of_nat (List.length (List.filter (has_id id) state)))%Z.
Proof.
  unfold total_votes. simpl.
  induction state as [|[a|s] state IH]; intros H; simpl; [reflexivity| |].
  - pose proof (H a (or_introl eq_refl)) as Ha.
    destruct (Anecdote.id a =? id); simpl;
      rewrite IH by (intros; apply H; now right);
      [rewrite nearest_number_safe by lia|]; lia.
  - apply IH. intros; apply H; now right.
Qed.

(** X24. Votes commute: two votes give the same state in either
    order. *)
Theorem votes_commute (state : list Item) (i j : string) :
  reducer (reducer state (increaseVoteCount i)) (increaseVoteCount j)
  = reducer (reducer state (increaseVoteCount j)) (increaseVoteCount i).
Proof.
  simpl. rewrite !map_map. apply map_ext. intros [a|s]; simpl; [|reflexivity].
  destruct (Anecdote.id a =? i) eqn:Ei, (Anecdote.id a =? j) eqn:Ej; simpl;
    rewrite ?Ei, ?Ej; reflexivity.
Qed.

End AnecdoteFacts.

(* ===================================================================== *)
(** ** These properties at concrete requests *)
(* ===================================================================== *)

Lemma seed_owner_lists_blog : owner_lists_blog Scenario.seed.
Proof.
  intros o b. unfold Scenario.seed. simpl.
  rewrite lookup_insert. case_decide as E1.
  - intros [= <-]. exists Scenario.arto. eexists.
    split; [reflexivity|]. split; [vm_compute; reflexivity|].
    subst o. now left.
  - rewrite lookup_insert. case_decide as E2.
    + intros [= <-]. exists Scenario.matti. eexists.
      split; [reflexivity|]. split; [vm_compute; reflexivity|].
      subst o. now left.
    + rewrite lookup_empty. discriminate.
Qed.

Module MoreRuns.
Import Scenario Cases.

Lemma delete_unauthenticated_401_witness :
  status_of (run delete_no_token seed) = Some 401 /\
  db (run delete_no_token seed) = seed.
Proof.
  apply (delete_unauthenticated_401 Scenario.jwt_verify castObjectId fresh_id given_id
          castString_other castNumber_other
           delete_no_token seed); [reflexivity | vm_compute; reflexivity].
Defined.

Lemma guarded_routes_need_token_witness :
  In (status_of (run post_no_token seed)) [Some 400; Some 401; Some 500].
Proof.
  apply (guarded_routes_need_token Scenario.jwt_verify castObjectId fresh_id given_id
          castString_other castNumber_other
           post_no_token seed); [discriminate | vm_compute; reflexivity].
Defined.

Lemma unknown_user_500_witness :
  status_of (run_with_ghost delete_by_ghost seed) = Some 500 /\
  db (run_with_ghost delete_by_ghost seed) = seed.
Proof.
  apply (unknown_user_500 Cases.jwt_verify castObjectId fresh_id given_id
          castString_other castNumber_other
           delete_by_ghost seed "token.of.ghost" ghost
           (mkPayload (Some ghost) (Some "ghost")) ghost);
    [discriminate | vm_compute; reflexivity | reflexivity | reflexivity
    | discriminate | vm_compute; reflexivity | vm_compute; reflexivity].
Defined.

Lemma delete_by_owner_witness :
  status_of (run delete_own seed) = Some 204 /\
  blogColl (db (run delete_own seed)) !! react_patterns = None /\
  (forall o', o' <> react_patterns ->
     blogColl (db (run delete_own seed)) !! o' = blogColl seed !! o') /\
  userColl (db (run delete_own seed)) = userColl seed.
Proof.
  apply (delete_by_owner Scenario.jwt_verify castObjectId fresh_id given_id
          castString_other castNumber_other
           delete_own seed arto_doc react_patterns);
    [reflexivity | vm_compute; reflexivity | left; reflexivity
    | vm_compute; reflexivity].
Defined.

Lemma delete_twice_witness :
  status_of (run delete_own (db (run delete_own seed))) = Some 204 /\
  db (run delete_own (db (run delete_own seed))) = db (run delete_own seed).
Proof.
  apply (delete_twice Scenario.jwt_verify castObjectId fresh_id given_id
      castString_other castNumber_other delete_own seed);
    [reflexivity | vm_compute; reflexivity].
Defined.

Lemma put_malformed_id_400_witness :
  status_of (run put_malformed seed) = Some 400 /\
  payload_of (run put_malformed seed) = Some (ErrorJson "malformatted id") /\
  db (run put_malformed seed) = seed.
Proof.
  apply (put_malformed_id_400 Scenario.jwt_verify castObjectId fresh_id given_id
          castString_other castNumber_other
           put_malformed seed); [reflexivity | vm_compute; reflexivity].
Defined.

Lemma put_empty_title_or_url_400_witness :
  status_of (run put_missing_empty_title seed) = Some 400 /\
  db (run put_missing_empty_title seed) = seed.
Proof.
  apply (put_empty_title_or_url_400 Scenario.jwt_verify castObjectId fresh_id given_id
          castString_other castNumber_other
           put_missing_empty_title seed nowhere);
    [reflexivity | vm_compute; reflexivity | left; reflexivity].
Defined.

Lemma put_idempotent_witness :
  sent (response (run put_existing (db (run put_existing seed))))
  = sent (response (run put_existing seed)) /\
  db (run put_existing (db (run put_existing seed))) = db (run put_existing seed).
Proof.
  apply (put_idempotent Scenario.jwt_verify castObjectId fresh_id given_id
          castString_other castNumber_other
           put_existing seed); reflexivity.
Defined.

Lemma put_needs_no_token_witness :
  sent (response (run (with_authorization (Some "Bearer token.expired")
                         put_existing) seed))
  = sent (response (run put_existing seed)) /\
  db (run (with_authorization (Some "Bearer token.expired") put_existing) seed)
  = db (run put_existing seed).
Proof.
  apply (put_needs_no_token Scenario.jwt_verify castObjectId fresh_id given_id
          castString_other castNumber_other
           put_existing seed (Some "Bearer token.expired")); reflexivity.
Defined.

Lemma post_missing_title_or_url_400_witness :
  status_of (run post_no_title seed) = Some 400 /\
  db (run post_no_title seed) = seed.
Proof.
  apply (post_missing_title_or_url_400 Scenario.jwt_verify castObjectId fresh_id given_id
          castString_other castNumber_other
           post_no_title seed arto_doc);
    [reflexivity | vm_compute; reflexivity | left; left; reflexivity].
Defined.

Lemma post_frame_witness :
  exists u o,
    requester Scenario.jwt_verify castObjectId post_by_matti seed = Some u /\
    document_id castObjectId fresh_id given_id (b_others (body post_by_matti)) = Some o /\
    blogColl seed !! o = None /\
    (forall o', o' <> o ->
       blogColl (db (run post_by_matti seed)) !! o' = blogColl seed !! o') /\
    (forall uid, uid <> _id u ->
       userColl (db (run post_by_matti seed)) !! uid = userColl seed !! uid) /\
    (exists u', userColl (db (run post_by_matti seed)) !! _id u = Some u' /\
                User.username u' = User.username (paths u) /\
                User.name u' = User.name (paths u) /\
                User.passwordHash u' = User.passwordHash (paths u)).
Proof.
  apply (post_frame Scenario.jwt_verify castObjectId fresh_id given_id
      castString_other castNumber_other post_by_matti seed);
    [reflexivity | vm_compute; reflexivity].
Defined.

Lemma owner_lists_blog_preserved_witness :
  owner_lists_blog seed /\
  owner_lists_blog (db (run post_by_matti seed)) /\
  owner_lists_blog (db (run delete_foreign seed)).
Proof.
  split; [exact seed_owner_lists_blog|]. split.
  - apply (owner_lists_blog_preserved Scenario.jwt_verify castObjectId fresh_id given_id
      castString_other castNumber_other post_by_matti seed
             seed_owner_lists_blog).
    right. vm_compute. reflexivity.
  - apply (owner_lists_blog_preserved Scenario.jwt_verify castObjectId fresh_id given_id
      castString_other castNumber_other delete_foreign seed
             seed_owner_lists_blog).
    left. discriminate.
Defined.

Lemma get_shows_owner_witness :
  In react_patterns_entry (snd (blogs_get seed)) /\
  exists uid u,
    Blog.user (paths (p_blog react_patterns_entry)) = Some uid /\
    userColl seed !! uid = Some u /\
    In (_id (p_blog react_patterns_entry)) (User.blogs u) /\
    p_user react_patterns_entry
    = Some (mkOwner (User.username u) (User.name u) uid).
Proof.
  assert (In react_patterns_entry (snd (blogs_get seed))) as Hin
    by (vm_compute; auto).
  split; [exact Hin|].
  apply (get_shows_owner seed react_patterns_entry seed_owner_lists_blog Hin).
Defined.

Lemma post_then_get_witness :
  exists u o b,
    requester Scenario.jwt_verify castObjectId post_by_matti seed = Some u /\
    document_id castObjectId fresh_id given_id (b_others (body post_by_matti)) = Some o /\
    payload_of (run post_by_matti seed) = Some (BlogJson (mkDoc o b)) /\
    In (mkPopulated (mkDoc o b)
          (Some (mkOwner (User.username (paths u)) (User.name (paths u)) (_id u))))
       (snd (blogs_get (db (run post_by_matti seed)))).
Proof.
  apply (post_then_get Scenario.jwt_verify castObjectId fresh_id given_id
      castString_other castNumber_other post_by_matti seed);
    [reflexivity | vm_compute; reflexivity].
Defined.

Lemma post_then_delete_witness :
  status_of (run (delete_of fresh_id post_by_matti) (db (run post_by_matti seed)))
  = Some 204 /\
  blogColl (db (run (delete_of fresh_id post_by_matti)
                    (db (run post_by_matti seed))))
  = blogColl seed /\
  userColl (db (run (delete_of fresh_id post_by_matti)
                    (db (run post_by_matti seed))))
  = userColl (db (run post_by_matti seed)) /\
  exists u u',
    requester Scenario.jwt_verify castObjectId post_by_matti seed = Some u /\
    userColl (db (run (delete_of fresh_id post_by_matti)
                      (db (run post_by_matti seed)))) !! _id u = Some u' /\
    In fresh_id (User.blogs u').
Proof.
  apply (post_then_delete Scenario.jwt_verify castObjectId fresh_id given_id
      castString_other castNumber_other post_by_matti seed fresh_id);
    [reflexivity | vm_compute; reflexivity | vm_compute; reflexivity
    | vm_compute; reflexivity].
Defined.

Lemma errors_are_answered_witness :
  let w' := handle_errors (NextError (CastError "---invalid-fomat---"),
                           arrived put_malformed seed) in
  db w' = seed /\ status_of w' = Some 400.
Proof.
  destruct (errors_are_answered (CastError "---invalid-fomat---")
              (arrived put_malformed seed) eq_refl) as (Hd & H400 & _).
  split; [exact Hd | apply H400; left; reflexivity].
Defined.

Lemma answer_is_final_witness :
  sent (response (after_router post_by_matti
                    (call (blogs_post castObjectId fresh_id given_id castString_other
                                      castNumber_other post_by_matti) answered)))
  = Some (401, ErrorJson "JWT invalid") /\
  sent (response (after_router post_by_matti
                    (call (blogs_delete castObjectId post_by_matti) answered)))
  = Some (401, ErrorJson "JWT invalid") /\
  sent (response (after_router post_by_matti
                    (call (blogs_put castObjectId castString_other
                                     castNumber_other post_by_matti) answered)))
  = Some (401, ErrorJson "JWT invalid").
Proof.
  apply (answer_is_final castObjectId fresh_id given_id castString_other
           castNumber_other post_by_matti answered
           (401, ErrorJson "JWT invalid")); reflexivity.
Defined.

Lemma post_with_given_id_witness :
  (status_of (run post_with_malformed_id seed) = Some 400 /\
   db (run post_with_malformed_id seed) = seed) /\
  (In (status_of (run post_with_taken_id seed)) [Some 400; Some 500] /\
   db (run post_with_taken_id seed) = seed) /\
  (exists o b, castObjectId nowhere = Some o /\ blogColl seed !! o = None /\
               blogColl (db (run post_with_id seed)) !! o = Some b).
Proof.
  split; [|split].
  - apply (proj1 (post_with_given_id Scenario.jwt_verify castObjectId fresh_id given_id
      castString_other castNumber_other post_with_malformed_id seed matti_doc
                    "---invalid-fomat---" eq_refl eq_refl eq_refl)).
    vm_compute. reflexivity.
  - apply (proj1 (proj2 (post_with_given_id Scenario.jwt_verify castObjectId fresh_id given_id
      castString_other castNumber_other post_with_taken_id seed
                           matti_doc react_patterns eq_refl eq_refl eq_refl))
                 react_patterns);
      [vm_compute; reflexivity | vm_compute; eauto].
  - apply (proj2 (proj2 (post_with_given_id Scenario.jwt_verify castObjectId fresh_id given_id
      castString_other castNumber_other post_with_id seed matti_doc
                           nowhere eq_refl eq_refl eq_refl))).
    vm_compute. reflexivity.
Defined.

Lemma put_null_or_uncastable_400_witness :
  (status_of (run put_missing_null_title seed) = Some 400 /\
   db (run put_missing_null_title seed) = seed) /\
  (status_of (run put_missing_bad_likes seed) = Some 400 /\
   db (run put_missing_bad_likes seed) = seed).
Proof.
  split.
  - apply (put_null_or_uncastable_400 Scenario.jwt_verify castObjectId fresh_id given_id
      castString_other castNumber_other put_missing_null_title seed nowhere);
      [reflexivity | vm_compute; reflexivity | left; reflexivity].
  - apply (put_null_or_uncastable_400 Scenario.jwt_verify castObjectId fresh_id given_id
      castString_other castNumber_other put_missing_bad_likes seed nowhere);
      [reflexivity | vm_compute; reflexivity
      | right; right; exists (JString "many"); vm_compute; reflexivity].
Defined.

Lemma post_ignores_user_witness :
  run (with_body (mkBody (Some (JString "Type wars"))
                         (Some (JString "Robert C. Martin"))
                         (Some (JString "http://blog.cleancoder.com/")) None None
                         [("additional", "should-not-contain-this")])
         post_by_matti) seed
  = run post_by_matti seed.
Proof.
  apply (post_ignores_user Scenario.jwt_verify castObjectId fresh_id given_id
      castString_other castNumber_other post_by_matti seed None); reflexivity.
Defined.

Lemma vote_total_witness :
  Anecdotes.total_votes
    (Anecdotes.reducer two_anecdotes (Anecdotes.increaseVoteCount "21149"))
  = 4%Z.
Proof.
  apply (AnecdoteFacts.vote_total two_anecdotes "21149").
  intros a [H | [H | []]]; injection H as <-; vm_compute; reflexivity.
Defined.

Lemma vote_for_absent_id_witness :
  Anecdotes.reducer two_anecdotes (Anecdotes.increaseVoteCount "99999")
  = two_anecdotes.
Proof.
  apply (AnecdoteFacts.vote_for_absent_id two_anecdotes "99999").
  intros a [H | [H | []]]; injection H as <-; discriminate.
Defined.

End MoreRuns.

